(** * Phishing-URL detector: feature extraction and request pipeline

    A shallow embedding of [feature.py] (class [FeatureExtraction]) and of
    the request handler of [app.py], together with the properties the
    specification states about them.

    Conventions.
    - Python [str] values are Rocq strings, read as sequences of code points
      below 256.
    - Python [int] values are [Z]; Python [float] values are IEEE binary64
      numbers ([spec_float] with precision 53 and maximal exponent 1024).
    - Code that may raise returns a [result]; [try: ... except Exception:]
      is [try_except].
    - Every call that leaves the process (HTTP, WHOIS, DNS, search, the
      HTML/XML parsers, the clock) is a field of the record [World]. *)

From Stdlib Require Import ZArith List String Ascii Bool Lia.
From Stdlib Require Import SpecFloat.
Import ListNotations.

Set Warnings "-register-all".

Local Open Scope string_scope.
Local Open Scope Z_scope.

(* ================================================================== *)
(** * The Python runtime the program relies on *)
(* ================================================================== *)

Module Py.

(** ** Exceptions *)

(** The exception classes that occur in the two modules.  All of them derive
    from [Exception]; [gaierror] is the only one a handler of the program
    names explicitly. *)
Inductive exn : Type :=
| ValueError
| TypeError
| AttributeError
| IndexError
| KeyError
| ZeroDivisionError
| OverflowError
| OSError
| gaierror
| ExceptionNamed (name : string).

Inductive result (A : Type) : Type :=
| Ok (a : A)
| Raise (e : exn).
Arguments Ok {A} a.
Arguments Raise {A} e.

Definition bind {A B : Type} (m : result A) (k : A -> result B) : result B :=
  match m with
  | Ok a => k a
  | Raise e => Raise e
  end.

Declare Scope py_scope.
Delimit Scope py_scope with py.
Notation "x <- m ;; k" := (bind m (fun x => k))
  (at level 61, m at next level, right associativity) : py_scope.

(** [try: body / except Exception: handler]. *)
Definition try_except {A : Type} (body : result A) (handler : result A)
  : result A :=
  match body with
  | Ok a => Ok a
  | Raise _ => handler
  end.

(** [try: body / except Exception: pass] around a statement that assigns
    [self.x]: the old value stays when the body raises. *)
Definition try_assign {A : Type} (old : A) (body : result A) : A :=
  match body with
  | Ok a => a
  | Raise _ => old
  end.

Definition is_gaierror (e : exn) : bool :=
  match e with
  | gaierror => true
  | _ => false
  end.

(** ** Strings *)

Definition code (c : ascii) : Z := Z.of_N (N_of_ascii c).

Definition between (lo hi : Z) (c : ascii) : bool :=
  (lo <=? code c) && (code c <=? hi).

Definition chr_eqb (a b : ascii) : bool := Ascii.eqb a b.

(** [str.isspace] on one character ([Py_UNICODE_ISSPACE]), which is also
    what [\s] matches in a [str] pattern. *)
Definition is_space (c : ascii) : bool :=
  between 9 13 c || between 28 32 c || (code c =? 133) || (code c =? 160).

Definition is_digit (c : ascii) : bool := between 48 57 c.

Definition is_alpha_ascii (c : ascii) : bool :=
  between 65 90 c || between 97 122 c.

(** [str.lower] on one character: the ASCII capitals, and the Latin-1
    capitals U+00C0..U+00DE without the multiplication sign. *)
Definition lower_chr (c : ascii) : ascii :=
  if between 65 90 c || (between 192 222 c && negb (code c =? 215))
  then ascii_of_N (N_of_ascii c + 32)
  else c.

Fixpoint lower (s : string) : string :=
  match s with
  | EmptyString => EmptyString
  | String c s' => String (lower_chr c) (lower s')
  end.

(** [len(s)]. *)
Definition len (s : string) : Z := Z.of_nat (String.length s).

(** [sub in s]. *)
Definition str_in (sub s : string) : bool :=
  match String.index 0 sub s with
  | Some _ => true
  | None => false
  end.

(** [s.find(sub, start)] for [start >= 0]. *)
Definition find (s sub : string) (start : Z) : Z :=
  match String.index (Z.to_nat start) sub s with
  | Some n => Z.of_nat n
  | None => -1
  end.

(** [s.count(c)] for a one-character [c]. *)
Fixpoint count_chr (c : ascii) (s : string) : Z :=
  match s with
  | EmptyString => 0
  | String d s' => (if chr_eqb c d then 1 else 0) + count_chr c s'
  end.

Fixpoint drop_while (p : ascii -> bool) (s : string) : string :=
  match s with
  | EmptyString => EmptyString
  | String c s' => if p c then drop_while p s' else s
  end.

Fixpoint take_while (p : ascii -> bool) (s : string) : string :=
  match s with
  | EmptyString => EmptyString
  | String c s' => if p c then String c (take_while p s') else EmptyString
  end.

Fixpoint remove_chrs (p : ascii -> bool) (s : string) : string :=
  match s with
  | EmptyString => EmptyString
  | String c s' => if p c then remove_chrs p s' else String c (remove_chrs p s')
  end.

Fixpoint rev_str (acc s : string) : string :=
  match s with
  | EmptyString => acc
  | String c s' => rev_str (String c acc) s'
  end.

(** [s.strip(chars)] for the characters that pass [p]. *)
Definition strip (p : ascii -> bool) (s : string) : string :=
  let t := drop_while p s in
  rev_str EmptyString (drop_while p (rev_str EmptyString t)).

Fixpoint all_chrs (p : ascii -> bool) (s : string) : bool :=
  match s with
  | EmptyString => true
  | String c s' => p c && all_chrs p s'
  end.

(** ** Regular expressions

    The patterns of the program use literals, character classes,
    alternation and the [*] and [+] repetitions only, so a regular
    expression is a term of [regex] and matching is by derivatives. *)

Inductive regex : Type :=
| Never
| Empty
| Chr (p : ascii -> bool)
| Cat (r1 r2 : regex)
| Alt (r1 r2 : regex)
| Star (r : regex).

Fixpoint nullable (r : regex) : bool :=
  match r with
  | Never => false
  | Empty => true
  | Chr _ => false
  | Cat r1 r2 => nullable r1 && nullable r2
  | Alt r1 r2 => nullable r1 || nullable r2
  | Star _ => true
  end.

Fixpoint deriv (c : ascii) (r : regex) : regex :=
  match r with
  | Never => Never
  | Empty => Never
  | Chr p => if p c then Empty else Never
  | Cat r1 r2 =>
      if nullable r1
      then Alt (Cat (deriv c r1) r2) (deriv c r2)
      else Cat (deriv c r1) r2
  | Alt r1 r2 => Alt (deriv c r1) (deriv c r2)
  | Star r1 => Cat (deriv c r1) (Star r1)
  end.

(** Some prefix of [s] matches [r]. *)
Fixpoint prefixmatch (r : regex) (s : string) : bool :=
  nullable r ||
  match s with
  | EmptyString => false
  | String c s' => prefixmatch (deriv c r) s'
  end.

(** [re.search(r, s)] is not [None]: a match starts somewhere in [s]. *)
Fixpoint search (r : regex) (s : string) : bool :=
  prefixmatch r s ||
  match s with
  | EmptyString => false
  | String _ s' => search r s'
  end.

(** Length of the longest prefix of [s] that matches [r]. *)
Fixpoint longest_prefix (r : regex) (s : string) : option nat :=
  match s with
  | EmptyString => if nullable r then Some O else None
  | String c s' =>
      match longest_prefix (deriv c r) s' with
      | Some n => Some (S n)
      | None => if nullable r then Some O else None
      end
  end.

(** [len(re.findall(r, s))] for a pattern that does not match the empty
    string and whose match at a given start is unique: matches are taken
    left to right and do not overlap ([skip] characters of the current match
    remain to be passed). *)
Fixpoint findall_count (r : regex) (s : string) (skip : nat) : Z :=
  match s with
  | EmptyString => 0
  | String _ s' =>
      match skip with
      | S k => findall_count r s' k
      | O =>
          match longest_prefix r s with
          | Some (S n) => 1 + findall_count r s' n
          | _ => findall_count r s' O
          end
      end
  end.

Fixpoint lit (s : string) : regex :=
  match s with
  | EmptyString => Empty
  | String c s' => Cat (Chr (chr_eqb c)) (lit s')
  end.

(** Literal under [re.IGNORECASE]. *)
Fixpoint lit_nocase (s : string) : regex :=
  match s with
  | EmptyString => Empty
  | String c s' =>
      Cat (Chr (fun d => chr_eqb (lower_chr c) (lower_chr d))) (lit_nocase s')
  end.

Fixpoint alts (l : list regex) : regex :=
  match l with
  | [] => Never
  | [r] => r
  | r :: l' => Alt r (alts l')
  end.

Definition Plus (r : regex) : regex := Cat r (Star r).

(** [.] without [re.DOTALL]: any character but a newline. *)
Definition dot : regex := Chr (fun c => negb (code c =? 10)).
Definition space : regex := Chr is_space.
Definition digit : regex := Chr is_digit.

(** ** [int(s)] *)

(** [sys.get_int_max_str_digits()], the default of CPython 3.11 and later. *)
Definition max_str_digits : Z := 4300.

(** Value of [d (_? d)*]; [prev_digit] tells whether the previous character
    was a digit, which an underscore needs on both sides. *)
Fixpoint digits_value (s : string) (acc : Z) (prev_digit : bool) : option Z :=
  match s with
  | EmptyString => if prev_digit then Some acc else None
  | String c s' =>
      if is_digit c then digits_value s' (10 * acc + (code c - 48)) true
      else if chr_eqb c "_" && prev_digit then
             match s' with
             | String d _ => if is_digit d then digits_value s' acc false else None
             | EmptyString => None
             end
           else None
  end.

(** The white space [int] accepts around a number: the ASCII one, and
    U+0085 and U+00A0; not the separators U+001C..U+001F, which
    [str.isspace] accepts. *)
Definition int_space (c : ascii) : bool :=
  between 9 13 c || (code c =? 32) || (code c =? 133) || (code c =? 160).

Definition int_of_str (s : string) : result Z :=
  let t := strip int_space s in
  let '(neg, body) :=
    match t with
    | String "-" b => (true, b)
    | String "+" b => (false, b)
    | _ => (false, t)
    end in
  if max_str_digits <? len (remove_chrs (chr_eqb "_") body) then Raise ValueError
  else
    match digits_value body 0 false with
    | Some v => Ok (if neg then - v else v)
    | None => Raise ValueError
    end.

(** ** Floats *)

Definition prec : Z := 53.
Definition emax : Z := 1024.

Definition float : Type := spec_float.

(** An integer as an unrounded binary number. *)
Definition exact (n : Z) : float :=
  match n with
  | Z0 => S754_zero false
  | Zpos p => S754_finite false p 0
  | Zneg p => S754_finite true p 0
  end.

(** [float(n)]. *)
Definition float_of_int (n : Z) : result float :=
  match binary_normalize prec emax n 0 false with
  | S754_infinity _ => Raise OverflowError
  | x => Ok x
  end.

(** A float literal [n.0]. *)
Definition float_lit (n : Z) : float := binary_normalize prec emax n 0 false.

(** [a / b] on two [int]s: the exact quotient rounded once. *)
Definition int_truediv (a b : Z) : result float :=
  if b =? 0 then Raise ZeroDivisionError
  else
    match SFdiv prec emax (exact a) (exact b) with
    | S754_infinity _ => Raise OverflowError
    | q => Ok q
    end.

(** [x * n] for a [float] [x] and an [int] [n]. *)
Definition float_mul_int (x : float) (n : Z) : result float :=
  (y <- float_of_int n ;; Ok (SFmul prec emax x y))%py.

Definition float_lt (x y : float) : bool := SFltb x y.
Definition float_le (x y : float) : bool := SFleb x y.

End Py.

Import Py.

(* ================================================================== *)
(** * Library functions the program calls *)
(* ================================================================== *)

(** ** [socket.inet_aton] *)

Module Socket.

Definition digit_in_base (base : Z) (c : ascii) : option Z :=
  let v :=
    if is_digit c then code c - 48
    else if between 97 102 c then code c - 87
    else if between 65 70 c then code c - 55
    else 99 in
  if v <? base then Some v else None.

(** The digits [strtoul] consumes in a given base, and what is left. *)
Fixpoint strtoul_digits (base : Z) (s : string) (acc : Z) : Z * string :=
  match s with
  | EmptyString => (acc, s)
  | String c s' =>
      match digit_in_base base c with
      | Some v => strtoul_digits base s' (base * acc + v)
      | None => (acc, s)
      end
  end.

(** [strtoul(s, &end, 0)] on a string that starts with a digit: [0x] opens
    a hexadecimal number when a hexadecimal digit follows, a leading [0] an
    octal one, anything else is decimal. *)
Definition strtoul0 (s : string) : Z * string :=
  match s with
  | String "0" (String x ((String h _) as t)) =>
      if (chr_eqb x "x" || chr_eqb x "X")
         && match digit_in_base 16 h with Some _ => true | None => false end
      then strtoul_digits 16 t 0
      else strtoul_digits 8 s 0
  | String "0" _ => strtoul_digits 8 s 0
  | _ => strtoul_digits 10 s 0
  end.

(** C [isspace] in the C locale. *)
Definition c_isspace (c : ascii) : bool := between 9 13 c || (code c =? 32).

(** The loop of the C library's [inet_aton] (glibc): up to three parts
    closed by a dot, each at most 255, then a last part that fills the
    remaining bytes; [slots] counts the dotted parts still allowed.  After
    the last part only the end of the string or white space may follow. *)
Fixpoint aton_parts (slots : nat) (s : string) : bool :=
  match s with
  | EmptyString => false
  | String c _ =>
      if negb (is_digit c) then false
      else
        let '(val, rest) := strtoul0 s in
        if 4294967295 <? val then false
        else
          match rest with
          | String "." rest' =>
              match slots with
              | O => false
              | S slots' =>
                  if 255 <? val then false else aton_parts slots' rest'
              end
          | String d _ =>
              c_isspace d && (val <=? 2 ^ (8 * (Z.of_nat slots + 1)) - 1)
          | EmptyString => val <=? 2 ^ (8 * (Z.of_nat slots + 1)) - 1
          end
  end.

Definition has_nul (s : string) : bool :=
  negb (all_chrs (fun c => negb (code c =? 0)) s).

(** [socket.inet_aton(s)]: the packed address is not used by the program,
    so only success or the exception is kept. *)
Definition inet_aton (s : string) : result unit :=
  if has_nul s then Raise ValueError
  else if aton_parts 3 s then Ok tt
  else Raise OSError.

End Socket.

(** ** [urllib.parse.urlparse] *)

Module Urllib.

Record ParseResult : Type := {
  scheme : string;
  netloc : string;
  rest : string   (* path, parameters, query and fragment, not split *)
}.

Definition scheme_chr (c : ascii) : bool :=
  is_alpha_ascii c || is_digit c
  || chr_eqb c "+" || chr_eqb c "-" || chr_eqb c ".".

Definition netloc_end (c : ascii) : bool :=
  chr_eqb c "/" || chr_eqb c "?" || chr_eqb c "#".

(** Splits at the first colon. *)
Fixpoint split_colon (s : string) : option (string * string) :=
  match s with
  | EmptyString => None
  | String c s' =>
      if chr_eqb c ":" then Some (EmptyString, s')
      else
        match split_colon s' with
        | Some (a, b) => Some (String c a, b)
        | None => None
        end
  end.

Section Urlparse.

(** The check of a network location that has both brackets passes: in
    CPython 3.11.4 and later the bracketed text must be an IPv6 or IPvFuture
    address ([ipaddress]), patched versions also refuse text before the
    opening or after the closing bracket; before, every location passes. *)
Variable ip_address_ok : string -> bool.

(** [urlparse(url)], as far as the scheme and the network location. *)
Definition urlparse (url : string) : result ParseResult :=
  let url := drop_while (fun c => code c <=? 32) url in
  let url :=
    remove_chrs (fun c => (code c =? 9) || (code c =? 13) || (code c =? 10))
                url in
  let '(sch, url) :=
    match url, split_colon url with
    | String c0 _, Some (String a b, after) =>
        if is_alpha_ascii c0 && all_chrs scheme_chr (String a b)
        then (lower (String a b), after)
        else (EmptyString, url)
    | _, _ => (EmptyString, url)
    end in
  match url with
  | String "/" (String "/" after) =>
      let loc := take_while (fun c => negb (netloc_end c)) after in
      let tail := drop_while (fun c => negb (netloc_end c)) after in
      let has_open := str_in "[" loc in
      let has_close := str_in "]" loc in
      if (has_open && negb has_close) || (has_close && negb has_open)
      then Raise ValueError
      else if has_open && has_close
              && negb (ip_address_ok loc)
      then Raise ValueError
      else Ok {| scheme := sch; netloc := loc; rest := tail |}
  | _ => Ok {| scheme := sch; netloc := EmptyString; rest := url |}
  end.

End Urlparse.

End Urllib.

(** ** Parsed markup ([bs4]) *)

Module Bs4.

(** A parsed document: strings and tags with their attributes.  A
    [HiddenString] is a string that [.text] of the document leaves out: a
    comment, a doctype or declaration, and the content of [script], [style]
    and [template].  The attributes the program reads ([href], [src],
    [action], [RANK]) are single-valued, so an attribute value is a
    string. *)
Inductive node : Type :=
| NavigableString (s : string)
| HiddenString (s : string)
| Tag (name : string) (attrs : list (string * string)) (contents : list node).

(** Everything below a node, in document order. *)
Fixpoint descendants (n : node) : list node :=
  match n with
  | NavigableString _ | HiddenString _ => []
  | Tag _ _ cs =>
      (fix over (l : list node) : list node :=
         match l with
         | [] => []
         | c :: l' => (c :: descendants c ++ over l')%list
         end) cs
  end.

Fixpoint assoc (k : string) (l : list (string * string)) : option string :=
  match l with
  | [] => None
  | (k', v) :: l' => if String.eqb k k' then Some v else assoc k l'
  end.

Definition name_is (nm : string) (n : node) : bool :=
  match n with
  | NavigableString _ | HiddenString _ => false
  | Tag nm' _ _ => String.eqb nm nm'
  end.

Definition has_attr (k : string) (n : node) : bool :=
  match n with
  | NavigableString _ | HiddenString _ => false
  | Tag _ a _ => match assoc k a with Some _ => true | None => false end
  end.

(** [n.find_all(nm, k=True)]. *)
Definition find_all (nm k : string) (n : node) : list node :=
  filter (fun d => name_is nm d && has_attr k d) (descendants n).

(** [n.find(nm)]. *)
Definition find (nm : string) (n : node) : option node :=
  List.find (name_is nm) (descendants n).

(** [n[k]]. *)
Definition getitem (n : node) (k : string) : result string :=
  match n with
  | NavigableString _ | HiddenString _ => Raise TypeError
  | Tag _ a _ =>
      match assoc k a with
      | Some v => Ok v
      | None => Raise KeyError
      end
  end.

(** [n.text], that is [n.get_text()], of the document: its strings joined,
    without the hidden ones. *)
Fixpoint get_text (n : node) : string :=
  match n with
  | NavigableString s => s
  | HiddenString _ => EmptyString
  | Tag _ _ cs =>
      (fix over (l : list node) : string :=
         match l with
         | [] => EmptyString
         | c :: l' => (get_text c ++ over l')%string
         end) cs
  end.

End Bs4.

(** ** The outside world *)

(** [requests.Response]. *)
Record Response : Type := {
  status_code : Z;
  text : string;
  history : list Z   (* status codes of the redirects followed *)
}.

(** [bool(response)] is [response.ok]. *)
Definition ok (r : Response) : bool :=
  negb ((400 <=? status_code r) && (status_code r <? 600)).

(** Values found in a WHOIS entry. *)
Inductive pyval : Type :=
| PNone
| PStr (s : string)
| PDatetime (year month day : Z)
| PList (l : list pyval).

(** [whois.WhoisEntry], a [dict] whose attributes are its keys. *)
Record WhoisEntry : Type := {
  items : list (string * pyval);
  as_str : string   (* [str(entry)] *)
}.

Record World : Type := {
  requests_get : string -> result Response;
  requests_post : string -> string -> result Response;
  json : string -> result (list (string * string));
  html_parser : string -> result Bs4.node;
  xml_parser : string -> result Bs4.node;
  ip_address_ok : string -> bool;
  whois : string -> result WhoisEntry;
  date_today : Z * Z;   (* year and month of [date.today()] *)
  datetime_now : string;   (* [datetime.now()], formatted *)
  urlopen_read : string -> result string;
  search : string -> result (list string);
  gethostbyname : string -> result string;
  tldextract : string -> result (string * string)   (* domain, suffix *)
}.

(* ================================================================== *)
(** * [feature.py]: class [FeatureExtraction] *)
(* ================================================================== *)

Module FeatureExtraction.

Import Bs4.

(** The attributes of an instance. *)
Record t : Type := {
  features : list Z;
  url : string;
  domain : string;
  whois_response : option WhoisEntry;
  urlparse_obj : option Urllib.ParseResult;
  response : option Response;
  soup : option node
}.

(** The instance with [self.features] replaced. *)
Definition with_features (self : t) (l : list Z) : t :=
  {| features := l;
     url := url self;
     domain := domain self;
     whois_response := whois_response self;
     urlparse_obj := urlparse_obj self;
     response := response self;
     soup := soup self |}.

(** [self.features.append(v)]. *)
Definition append (self : t) (v : Z) : t :=
  with_features self (features self ++ [v])%list.

(** ** Helpers shared by the methods *)

(** [self.url in s or self.domain in s]. *)
Definition same_site (self : t) (s : string) : bool :=
  str_in (url self) s || str_in (domain self) s.

(** [(part / total * 100) if total else 0]; the [int] zero of the second
    branch compares with a float as [0.0] does. *)
Definition percentage (part total : Z) : result float :=
  if total =? 0 then Ok (S754_zero false)
  else (q <- int_truediv part total ;; float_mul_int q 100)%py.

(** [if p < lo: return 1 / elif lo <= p < hi: return 0 / return -1]. *)
Definition by_thresholds (p : float) (lo hi : Z) : Z :=
  if float_lt p (float_lit lo) then 1
  else if float_le (float_lit lo) p && float_lt p (float_lit hi) then 0
  else -1.

(** One [for element in ...] loop that counts in [(total, part)] the
    elements and those whose attribute [k] passes [test]. *)
Fixpoint count_elements (k : string) (test : string -> bool)
         (elements : list node) (acc : Z * Z) : result (Z * Z) :=
  match elements with
  | [] => Ok acc
  | element :: elements' =>
      let total := fst acc + 1 in
      (v <- getitem element k ;;
       count_elements k test elements'
         (total, if test v then snd acc + 1 else snd acc))%py
  end.

(** [for tag in tags: for element in self.soup.find_all(tag, src=True)]. *)
Fixpoint count_tags (self : t) (doc : node) (tags : list string)
         (acc : Z * Z) : result (Z * Z) :=
  match tags with
  | [] => Ok acc
  | tag :: tags' =>
      (acc' <- count_elements "src" (same_site self)
                 (find_all tag "src" doc) acc ;;
       count_tags self doc tags' acc')%py
  end.

(** [whois_response.name]: the entry's value, [None] when there is none. *)
Fixpoint entry_get (k : string) (l : list (string * pyval)) : pyval :=
  match l with
  | [] => PNone
  | (k', v) :: l' => if String.eqb k k' then v else entry_get k l'
  end.

Definition getattr (e : WhoisEntry) (k : string) : pyval :=
  entry_get k (items e).

(** [bool(entry)] of a [dict]. *)
Definition truthy (e : WhoisEntry) : bool :=
  match items e with
  | [] => false
  | _ :: _ => true
  end.

(** [if isinstance(d, list): d = d[0]]. *)
Definition first_if_list (d : pyval) : result pyval :=
  match d with
  | PList [] => Raise IndexError
  | PList (x :: _) => Ok x
  | _ => Ok d
  end.

Definition year_of (d : pyval) : result Z :=
  match d with
  | PDatetime y _ _ => Ok y
  | _ => Raise AttributeError
  end.

Definition month_of (d : pyval) : result Z :=
  match d with
  | PDatetime _ m _ => Ok m
  | _ => Raise AttributeError
  end.

Definition strip_prefix (p s : string) : option string :=
  if String.prefix p s
  then Some (String.substring (String.length p)
                              (String.length s - String.length p) s)
  else None.

(** [re.search(r"Global Rank:\s*([0-9]+)", s)] and its [group(1)]: the
    leftmost place where the label, white space and a digit follow each
    other, and the longest run of digits there. *)
Fixpoint global_rank (s : string) : option string :=
  let here :=
    match strip_prefix "Global Rank:" s with
    | Some after =>
        match take_while is_digit (drop_while is_space after) with
        | EmptyString => None
        | ds => Some ds
        end
    | None => None
    end in
  match here, s with
  | Some ds, _ => Some ds
  | None, String _ s' => global_rank s'
  | None, EmptyString => None
  end.

(** ** The patterns *)

(** [bit\.ly|goo\.gl|shorte\.st|tinyurl] *)
Definition shorteners : regex :=
  alts [lit "bit.ly"; lit "goo.gl"; lit "shorte.st"; lit "tinyurl"].

(** [mailto:] *)
Definition mailto : regex := lit "mailto:".

(** [<script>.+onmouseover.+</script>] *)
Definition onmouseover : regex :=
  Cat (lit "<script>")
      (Cat (Plus dot) (Cat (lit "onmouseover") (Cat (Plus dot) (lit "</script>")))).

(** [event.button\s*==\s*2] *)
Definition right_click : regex :=
  Cat (lit "event")
      (Cat dot (Cat (lit "button")
                    (Cat (Star space) (Cat (lit "==") (Cat (Star space) (lit "2")))))).

(** [alert\(] *)
Definition alert : regex := lit "alert(".

(** [<iframe|<frameBorder] *)
Definition iframe : regex := alts [lit "<iframe"; lit "<frameBorder"].

(** [<a\s+href=] with [re.IGNORECASE] *)
Definition a_href : regex :=
  Cat (lit_nocase "<a") (Cat (Plus space) (lit_nocase "href=")).

(** The URL pattern of [StatsReport]. *)
Definition bad_urls : regex :=
  alts [lit "at.ua"; lit "usa.cc"; lit "baltazarpresentes.com.br";
        lit "pe.hu"; lit "esy.es"; lit "hol.es"; lit "sweddy.com";
        lit "myjino.ru"; lit "96.lt"; lit "ow.ly"].

(** The address pattern of [StatsReport]. *)
Definition bad_ips : regex :=
  alts [lit "146.112.61.108"; lit "213.174.157.151"; lit "121.50.168.88";
        lit "192.185.217.116"; lit "78.46.211.158"; lit "181.174.165.13";
        lit "46.242.145.103"; lit "121.50.168.40"; lit "83.125.22.219";
        lit "46.242.145.98"; lit "107.151.148.44"; lit "107.151.148.107"].

Section Methods.

Variable w : World.
Variable self : t.

(** 1. Using IP address in URL *)
Definition UsingIp : result Z :=
  try_except
    (_ <- Socket.inet_aton (url self) ;; Ok (-1))%py
    (Ok 1).

(** 2. Long URL *)
Definition longUrl : result Z :=
  if len (url self) <? 60 then Ok 1
  else if (60 <=? len (url self)) && (len (url self) <=? 100) then Ok 0
  else Ok (-1).

(** 3. Short URL *)
Definition shortUrl : result Z :=
  if Py.search shorteners (url self) then Ok (-1) else Ok 1.

(** 4. Symbol '@' in URL *)
Definition symbol : result Z :=
  if str_in "@" (url self) then Ok (-1) else Ok 1.

(** 5. Double slashes after the protocol *)
Definition redirecting : result Z :=
  let pos :=
    if str_in "://" (url self)
    then Py.find (url self) "//" (Py.find (url self) "://" 0 + 3)
    else -1 in
  if negb (pos =? -1) then Ok (-1) else Ok 1.

(** 6. Hyphen in the domain *)
Definition prefixSuffix : result Z :=
  if str_in "-" (domain self) then Ok (-1) else Ok 1.

(** 7. Count of subdomains *)
Definition SubDomains : result Z :=
  let dot_count := count_chr "." (domain self) in
  if dot_count =? 1 then Ok 1
  else if dot_count =? 2 then Ok 0
  else Ok (-1).

(** 8. Check for HTTPS *)
Definition Https : result Z :=
  match urlparse_obj self with
  | Some p =>
      if String.eqb (lower (Urllib.scheme p)) "https" then Ok 1 else Ok (-1)
  | None => Ok (-1)
  end.

(** 9. Domain registration length *)
Definition DomainRegLen : result Z :=
  try_except
    (match whois_response self with
     | Some wr =>
         if truthy wr then
           (expiration_date <- first_if_list (getattr wr "expiration_date") ;;
            creation_date <- first_if_list (getattr wr "creation_date") ;;
            ey <- year_of expiration_date ;;
            cy <- year_of creation_date ;;
            em <- month_of expiration_date ;;
            cm <- month_of creation_date ;;
            let age_months := (ey - cy) * 12 + (em - cm) in
            if 12 <=? age_months then Ok 1 else Ok (-1))%py
         else Ok (-1)
     | None => Ok (-1)
     end)
    (Ok (-1)).

(** 10. Favicon *)
Fixpoint Favicon_loop (links : list node) : result Z :=
  match links with
  | [] => Ok (-1)
  | link :: links' =>
      (href <- getitem link "href" ;;
       if same_site self href then Ok 1 else Favicon_loop links')%py
  end.

Definition Favicon : result Z :=
  try_except
    (match soup self with
     | None => Ok (-1)
     | Some doc =>
         match Bs4.find "head" doc with
         | Some head => Favicon_loop (find_all "link" "href" head)
         | None => Ok (-1)
         end
     end)
    (Ok (-1)).

(** 11. Non-standard port usage *)
Definition NonStdPort : result Z :=
  if str_in ":" (domain self) then Ok (-1) else Ok 1.

(** 12. HTTPS in the domain part of the URL *)
Definition HTTPSDomainURL : result Z :=
  if str_in "https" (lower (domain self)) then Ok (-1) else Ok 1.

(** 13. Request URL analysis *)
Definition RequestURL : result Z :=
  try_except
    (match soup self with
     | None => Ok (-1)
     | Some doc =>
         (acc <- count_tags self doc ["img"; "audio"; "embed"; "iframe"] (0, 0) ;;
          p <- percentage (snd acc) (fst acc) ;;
          Ok (by_thresholds p 22 61))%py
     end)
    (Ok (-1)).

(** 14. Anchor URL analysis *)
Definition unsafe_href (href : string) : bool :=
  str_in "#" href
  || str_in "javascript" (lower href)
  || str_in "mailto" (lower href)
  || (negb (str_in (url self) href) && negb (str_in (domain self) href)).

Definition AnchorURL : result Z :=
  try_except
    (match soup self with
     | None => Ok (-1)
     | Some doc =>
         (acc <- count_elements "href" unsafe_href
                   (find_all "a" "href" doc) (0, 0) ;;
          p <- percentage (snd acc) (fst acc) ;;
          Ok (by_thresholds p 31 67))%py
     end)
    (Ok (-1)).

(** 15. Links in script or link tags *)
Definition LinksInScriptTags : result Z :=
  try_except
    (match soup self with
     | None => Ok (-1)
     | Some doc =>
         (acc <- count_tags self doc ["link"; "script"] (0, 0) ;;
          p <- percentage (snd acc) (fst acc) ;;
          Ok (by_thresholds p 17 81))%py
     end)
    (Ok (-1)).

(** 16. Server form handler analysis: every branch of the loop body
    returns, so the first form decides. *)
Definition ServerFormHandler : result Z :=
  try_except
    (match soup self with
     | None => Ok (-1)
     | Some doc =>
         match find_all "form" "action" doc with
         | form :: _ =>
             (action <- getitem form "action" ;;
              if String.eqb action EmptyString || String.eqb action "about:blank"
              then Ok (-1)
              else if negb (str_in (url self) action)
                      && negb (str_in (domain self) action)
              then Ok 0
              else Ok 1)%py
         | [] => Ok 1
         end
     end)
    (Ok (-1)).

(** 17. Check for info email presence *)
Definition InfoEmail : result Z :=
  try_except
    (match soup self with
     | Some doc => if Py.search mailto (get_text doc) then Ok (-1) else Ok 1
     | None => Ok 1
     end)
    (Ok (-1)).

(** 18. Abnormal URL *)
Definition AbnormalURL : result Z :=
  try_except
    (match response self, whois_response self with
     | Some r, Some wr =>
         if ok r && truthy wr && str_in (text r) (as_str wr)
         then Ok 1 else Ok (-1)
     | _, _ => Ok (-1)
     end)
    (Ok (-1)).

(** [self.response and ...]: [None] and a response with an error status
    are both false. *)
Definition response_if_ok : option Response :=
  match response self with
  | Some r => if ok r then Some r else None
  | None => None
  end.

(** 19. Website forwarding *)
Definition WebsiteForwarding : result Z :=
  try_except
    (match response_if_ok with
     | Some r =>
         if Z.of_nat (List.length (history r)) <=? 1 then Ok 1
         else if Z.of_nat (List.length (history r)) <=? 4 then Ok 0
         else Ok (-1)
     | None => Ok (-1)
     end)
    (Ok (-1)).

(** [if self.response and re.search(r, self.response.text): return 1
    else: return -1] inside [try] with fallback [-1]. *)
Definition body_matches (r : regex) : result Z :=
  try_except
    (match response_if_ok with
     | Some resp => if Py.search r (text resp) then Ok 1 else Ok (-1)
     | None => Ok (-1)
     end)
    (Ok (-1)).

(** 20. Status bar customization *)
Definition StatusBarCust : result Z := body_matches onmouseover.

(** 21. Disable right click check *)
Definition DisableRightClick : result Z := body_matches right_click.

(** 22. Using popup window *)
Definition UsingPopupWindow : result Z := body_matches alert.

(** 23. Iframe redirection check *)
Definition IframeRedirection : result Z := body_matches iframe.

(** 24. Age of domain *)
Definition AgeofDomain : result Z :=
  try_except
    (match whois_response self with
     | Some wr =>
         if truthy wr then
           (creation_date <- first_if_list (getattr wr "creation_date") ;;
            let today := date_today w in
            cy <- year_of creation_date ;;
            cm <- month_of creation_date ;;
            let age_months := (fst today - cy) * 12 + (snd today - cm) in
            if 6 <=? age_months then Ok 1 else Ok (-1))%py
         else Ok (-1)
     | None => Ok (-1)
     end)
    (Ok (-1)).

(** 25. DNS recording *)
Definition DNSRecording : result Z := AgeofDomain.

(** 26. Website traffic *)
Definition WebsiteTraffic : result Z :=
  try_except
    (let url_ :=
       ("http://data.alexa.com/data?cli=10&dat=s&url=" ++ url self)%string in
     xml_data <- urlopen_read w url_ ;;
     soup_xml <- xml_parser w xml_data ;;
     match Bs4.find "REACH" soup_xml with
     | Some reach =>
         if has_attr "RANK" reach then
           (v <- getitem reach "RANK" ;;
            rank <- int_of_str v ;;
            if rank <? 100000 then Ok 1 else Ok 0)
         else Ok (-1)
     | None => Ok (-1)
     end)%py
    (Ok (-1)).

(** 27. Page rank *)
Definition PageRank : result Z :=
  try_except
    (resp <- requests_post w "https://www.checkpagerank.net/index.php"
               (domain self) ;;
     match global_rank (text resp) with
     | Some group1 =>
         (rank <- int_of_str group1 ;;
          if (0 <? rank) && (rank <? 100000) then Ok 1 else Ok (-1))
     | None => Ok (-1)
     end)%py
    (Ok (-1)).

(** 28. Google index check *)
Definition GoogleIndex : result Z :=
  try_except
    (results <- search w (url self) ;;
     match results with
     | _ :: _ => Ok 1
     | [] => Ok (-1)
     end)%py
    (Ok 1).

(** 29. Links pointing to the page *)
Definition LinksPointingToPage : result Z :=
  try_except
    (match response_if_ok with
     | Some r =>
         let count := findall_count a_href (text r) 0 in
         if count =? 0 then Ok 1
         else if count <=? 2 then Ok 0
         else Ok (-1)
     | None => Ok (-1)
     end)
    (Ok (-1)).

(** 30. Stats report *)
Definition StatsReport : result Z :=
  try_except
    (let url_match := Py.search bad_urls (url self) in
     ip_address <- gethostbyname w (domain self) ;;
     let ip_match := Py.search bad_ips ip_address in
     if url_match || ip_match then Ok (-1) else Ok 1)%py
    (Ok 1).

End Methods.

(** ** The constructor *)

(** The thirty methods, by name. *)
Module Method.
Inductive t : Type :=
| UsingIp | longUrl | shortUrl | symbol | redirecting | prefixSuffix
| SubDomains | Https | DomainRegLen | Favicon | NonStdPort
| HTTPSDomainURL | RequestURL | AnchorURL | LinksInScriptTags
| ServerFormHandler | InfoEmail | AbnormalURL | WebsiteForwarding
| StatusBarCust | DisableRightClick | UsingPopupWindow
| IframeRedirection | AgeofDomain | DNSRecording | WebsiteTraffic
| PageRank | GoogleIndex | LinksPointingToPage | StatsReport.
End Method.

(** [self.m()]. *)
Definition call (w : World) (self : t) (m : Method.t) : result Z :=
  match m with
  | Method.UsingIp => UsingIp self
  | Method.longUrl => longUrl self
  | Method.shortUrl => shortUrl self
  | Method.symbol => symbol self
  | Method.redirecting => redirecting self
  | Method.prefixSuffix => prefixSuffix self
  | Method.SubDomains => SubDomains self
  | Method.Https => Https self
  | Method.DomainRegLen => DomainRegLen self
  | Method.Favicon => Favicon self
  | Method.NonStdPort => NonStdPort self
  | Method.HTTPSDomainURL => HTTPSDomainURL self
  | Method.RequestURL => RequestURL self
  | Method.AnchorURL => AnchorURL self
  | Method.LinksInScriptTags => LinksInScriptTags self
  | Method.ServerFormHandler => ServerFormHandler self
  | Method.InfoEmail => InfoEmail self
  | Method.AbnormalURL => AbnormalURL self
  | Method.WebsiteForwarding => WebsiteForwarding self
  | Method.StatusBarCust => StatusBarCust self
  | Method.DisableRightClick => DisableRightClick self
  | Method.UsingPopupWindow => UsingPopupWindow self
  | Method.IframeRedirection => IframeRedirection self
  | Method.AgeofDomain => AgeofDomain w self
  | Method.DNSRecording => DNSRecording w self
  | Method.WebsiteTraffic => WebsiteTraffic w self
  | Method.PageRank => PageRank w self
  | Method.GoogleIndex => GoogleIndex w self
  | Method.LinksPointingToPage => LinksPointingToPage self
  | Method.StatsReport => StatsReport w self
  end.

(** The order of the thirty [self.features.append(self.m())] statements. *)
Definition append_order : list Method.t :=
  [Method.UsingIp; Method.longUrl; Method.shortUrl; Method.symbol;
   Method.redirecting; Method.prefixSuffix; Method.SubDomains; Method.Https;
   Method.DomainRegLen; Method.Favicon; Method.NonStdPort;
   Method.HTTPSDomainURL; Method.RequestURL; Method.AnchorURL;
   Method.LinksInScriptTags; Method.ServerFormHandler; Method.InfoEmail;
   Method.AbnormalURL; Method.WebsiteForwarding; Method.StatusBarCust;
   Method.DisableRightClick; Method.UsingPopupWindow;
   Method.IframeRedirection; Method.AgeofDomain; Method.DNSRecording;
   Method.WebsiteTraffic; Method.PageRank; Method.GoogleIndex;
   Method.LinksPointingToPage; Method.StatsReport].

(** The first half of [__init__]: the three guarded fetches.  A failed
    request leaves [response] and [soup] at [None]; a failed parse of the
    body leaves [soup] at [None] only; a failed [urlparse] leaves [domain]
    empty; WHOIS is asked about whatever [domain] then is. *)
Definition fetch (w : World) (url : string) : t :=
  let page :=
    match requests_get w url with
    | Ok r =>
        (Some r, try_assign None (d <- html_parser w (text r) ;; Ok (Some d))%py)
    | Raise _ => (None, None)
    end in
  let parsed :=
    match Urllib.urlparse (ip_address_ok w) url with
    | Ok p => (Some p, Urllib.netloc p)
    | Raise _ => (None, EmptyString)
    end in
  let whois_response :=
    try_assign None (e <- whois w (snd parsed) ;; Ok (Some e))%py in
  {| features := [];
     url := url;
     domain := snd parsed;
     whois_response := whois_response;
     urlparse_obj := fst parsed;
     response := fst page;
     soup := snd page |}.

(** The second half: the appends, in order; an exception that left a
    method would leave the constructor. *)
Fixpoint appends (w : World) (ms : list Method.t) (self : t) : result t :=
  match ms with
  | [] => Ok self
  | m :: ms' => (v <- call w self m ;; appends w ms' (append self v))%py
  end.

(** [FeatureExtraction(url)]. *)
Definition __init__ (w : World) (url : string) : result t :=
  appends w append_order (fetch w url).

Definition getFeaturesList (self : t) : list Z := features self.

End FeatureExtraction.

(* ================================================================== *)
(** * [app.py] *)
(* ================================================================== *)

Module App.

(** [validate_url] *)
Definition validate_url (w : World) (url : string) : result string :=
  (parsed_url <- Urllib.urlparse (ip_address_ok w) url ;;
   if String.eqb (Urllib.scheme parsed_url) EmptyString
   then Ok ("http://" ++ url)%string
   else Ok url)%py.

(** The dictionary [fetch_url_details] returns. *)
Record SiteInfo : Type := {
  status : string;
  error : option exn;
  source_url : string;
  redirected_url : option string;
  ip_address : string;
  detection_date : string;
  certificate_details : string;
  location : string;
  hosting_provider : string;
  asn : pyval
}.

Definition unavailable (w : World) (st : string) (e : option exn)
           (url : string) : SiteInfo :=
  {| status := st;
     error := e;
     source_url := url;
     redirected_url := None;
     ip_address := "Unavailable";
     detection_date := datetime_now w;
     certificate_details := "Unavailable";
     location := "Unavailable";
     hosting_provider := "Unavailable";
     asn := PStr "Unavailable" |}.

(** [d.get(k, default)] *)
Definition get {V : Type} (d : list (string * V)) (k : string) (default : V)
  : V :=
  match List.find (fun kv => String.eqb k (fst kv)) d with
  | Some kv => snd kv
  | None => default
  end.

(** [fetch_url_details] *)
Definition fetch_url_details (w : World) (url : string) : SiteInfo :=
  match tldextract w url with
  | Raise e => unavailable w "error" (Some e) url
  | Ok (dom, suffix) =>
      let full_domain := (dom ++ "." ++ suffix)%string in
      match gethostbyname w full_domain with
      | Raise e =>
          if is_gaierror e then unavailable w "offline" None url
          else unavailable w "error" (Some e) url
      | Ok ip =>
          match (r <- requests_get w ("http://ip-api.com/json/" ++ ip)%string ;;
                 json w (text r))%py with
          | Raise e => unavailable w "error" (Some e) url
          | Ok geo_data =>
              let whois_info :=
                match whois w full_domain with
                | Ok entry => items entry
                | Raise _ => [("asn", PStr "N/A")]
                end in
              {| status := "online";
                 error := None;
                 source_url := url;
                 redirected_url := Some url;
                 ip_address := ip;
                 detection_date := datetime_now w;
                 certificate_details := ("Let's Encrypt: " ++ full_domain)%string;
                 location := (get geo_data "country" "Unknown" ++ ", "
                              ++ get geo_data "city" "Unknown")%string;
                 hosting_provider := get geo_data "isp" "Unknown";
                 asn := get whois_info "asn" (PStr "N/A") |}
          end
      end
  end.

(** The column names of the training data. *)
Definition column_names : list string :=
  ["Index"; "UsingIP"; "LongURL"; "ShortURL"; "Symbol@"; "Redirecting//";
   "PrefixSuffix-"; "SubDomains"; "HTTPS"; "DomainRegLen"; "Favicon";
   "NonStdPort"; "HTTPSDomainURL"; "RequestURL"; "AnchorURL";
   "LinksInScriptTags"; "ServerFormHandler"; "InfoEmail"; "AbnormalURL";
   "WebsiteForwarding"; "StatusBarCust"; "DisableRightClick";
   "UsingPopupWindow"; "IframeRedirection"; "AgeofDomain"; "DNSRecording";
   "WebsiteTraffic"; "PageRank"; "GoogleIndex"; "LinksPointingToPage";
   "StatsReport"].

(** [np.array(l).reshape(1, 30)] *)
Definition reshape_1_30 (l : list Z) : result (list Z) :=
  if Nat.eqb (List.length l) 30 then Ok l else Raise ValueError.

(** [pd.DataFrame(row, columns=names)] for a single row. *)
Definition DataFrame (row : list Z) (names : list string)
  : result (list (string * Z)) :=
  if Nat.eqb (List.length row) (List.length names)
  then Ok (combine names row)
  else Raise ValueError.

(** The frame [index] builds from the features list and gives to the
    classifier. *)
Definition features_df (features_list : list Z) : result (list (string * Z)) :=
  (features <- reshape_1_30 features_list ;;
   let dummy_feature := [0] in
   let features_with_dummy := (dummy_feature ++ features)%list in
   DataFrame features_with_dummy column_names)%py.

Inductive Request : Type :=
| GET
| POST (form : list (string * string)).

Section Classifier.

(** Modelled from the spec: the pickled classifier [pickle/model.pkl] is
    not among the sources.  Section 4.5 describes it as a map from the
    31-wide vector to a binary label and a probability pair, immutable
    after load; the types of labels and probabilities are left open. *)
Variables label prob : Type.

Record Classifier : Type := {
  predict : list (string * Z) -> label;
  predict_proba : list (string * Z) -> prob * prob
}.

Variable gbc : Classifier.

(** What [render_template] is given.  [xx] and [result_text] are both
    computed from [pro_non_phishing] alone, which is kept instead. *)
Inductive Rendered : Type :=
| Blank
| Failure (e : exn) (url : string) (website_info : SiteInfo)
| Verdict (is_offline : bool) (url : string) (website_info : SiteInfo)
          (pro_non_phishing : prob) (prediction : label).

(** The body of the [try] of [index] up to the prediction. *)
Definition analyse (w : World) (url : string) : result (label * prob) :=
  (extractor <- FeatureExtraction.__init__ w url ;;
   let features_list := FeatureExtraction.getFeaturesList extractor in
   df <- features_df features_list ;;
   let prediction := predict gbc df in
   let proba := predict_proba gbc df in
   Ok (prediction, snd proba))%py.

(** [index]; [validate_url] is called outside the [try]. *)
Definition index (w : World) (request : Request) : result Rendered :=
  match request with
  | POST form =>
      (url <- validate_url w (get form "url" EmptyString) ;;
       let website_info := fetch_url_details w url in
       match analyse w url with
       | Ok (prediction, pro_non_phishing) =>
           if String.eqb (status website_info) "offline"
           then Ok (Verdict true url website_info pro_non_phishing prediction)
           else Ok (Verdict false url website_info pro_non_phishing prediction)
       | Raise e => Ok (Failure e url website_info)
       end)%py
  | GET => Ok Blank
  end.

End Classifier.

Arguments predict {label prob}.
Arguments predict_proba {label prob}.
Arguments Blank {label prob}.
Arguments Failure {label prob}.
Arguments Verdict {label prob}.
Arguments analyse {label prob}.
Arguments index {label prob}.

End App.


(* ================================================================== *)
(** * The vocabulary of the properties *)
(* ================================================================== *)

Import FeatureExtraction.

(** A value of the three-valued encoding. *)
Definition trinary (v : Z) : Prop := v = -1 \/ v = 0 \/ v = 1.

(** The call returns, and returns a three-valued result. *)
Definition returns_trinary (r : result Z) : Prop :=
  exists v, r = Ok v /\ trinary v.

(** The order in which section 4.3 of the specification enumerates the
    indicators: the lexical group, the registration group, the content
    group, the reputation group.  The section words the port rule twice;
    it is counted once here. *)
Definition section_4_3_order : list Method.t :=
  [ (* lexical *)
    Method.UsingIp; Method.longUrl; Method.shortUrl; Method.symbol;
    Method.redirecting; Method.prefixSuffix; Method.SubDomains; Method.Https;
    Method.HTTPSDomainURL; Method.NonStdPort;
    (* domain and registration *)
    Method.DomainRegLen; Method.AgeofDomain; Method.DNSRecording;
    (* content *)
    Method.Favicon; Method.RequestURL; Method.AnchorURL;
    Method.LinksInScriptTags; Method.ServerFormHandler; Method.InfoEmail;
    Method.AbnormalURL; Method.WebsiteForwarding; Method.StatusBarCust;
    Method.DisableRightClick; Method.UsingPopupWindow;
    Method.IframeRedirection; Method.LinksPointingToPage;
    (* reputation *)
    Method.WebsiteTraffic; Method.PageRank; Method.GoogleIndex;
    Method.StatsReport ].

(** The constructor returns an instance whose feature list has thirty
    entries, the results of the methods named by [order], in that order. *)
Definition feature_list_in_order (order : list Method.t) (w : World)
           (url : string) : Prop :=
  exists fe,
    __init__ w url = Ok fe
    /\ List.length (getFeaturesList fe) = 30%nat
    /\ map Ok (getFeaturesList fe) = map (call w (fetch w url)) order.

(** The frame given to the classifier has the 31 named columns, a zero
    under [Index] and the feature list after it. *)
Definition classifier_input_ok (w : World) (url : string) : Prop :=
  exists fe df,
    __init__ w url = Ok fe
    /\ App.features_df (getFeaturesList fe) = Ok df
    /\ List.length df = 31%nat
    /\ map fst df = App.column_names
    /\ map snd df = 0 :: getFeaturesList fe.

(** The address of the traffic service for a URL. *)
Definition alexa_url (url : string) : string :=
  ("http://data.alexa.com/data?cli=10&dat=s&url=" ++ url)%string.

(** Two worlds give the same evidence about a URL: the URL parses alike,
    and each request the constructor and the methods send for it (page,
    markup, WHOIS, traffic rank, page rank, search index, address) is
    answered alike. *)
Record same_evidence (w1 w2 : World) (url : string) : Prop := {
  ev_urlparse :
    Urllib.urlparse (ip_address_ok w1) url
    = Urllib.urlparse (ip_address_ok w2) url;
  ev_response : requests_get w1 url = requests_get w2 url;
  ev_soup :
    forall r, requests_get w1 url = Ok r ->
              html_parser w1 (text r) = html_parser w2 (text r);
  ev_whois :
    whois w1 (domain (fetch w1 url)) = whois w2 (domain (fetch w1 url));
  ev_traffic : urlopen_read w1 (alexa_url url) = urlopen_read w2 (alexa_url url);
  ev_traffic_xml :
    forall x, urlopen_read w1 (alexa_url url) = Ok x ->
              xml_parser w1 x = xml_parser w2 x;
  ev_page_rank :
    requests_post w1 "https://www.checkpagerank.net/index.php"
                  (domain (fetch w1 url))
    = requests_post w2 "https://www.checkpagerank.net/index.php"
                    (domain (fetch w1 url));
  ev_search : search w1 url = search w2 url;
  ev_address :
    gethostbyname w1 (domain (fetch w1 url))
    = gethostbyname w2 (domain (fetch w1 url))
}.

(** Resolving the registered domain of the URL fails, as
    [fetch_url_details] tries it. *)
Definition registered_domain_unresolvable (w : World) (url : string) : Prop :=
  exists dom suffix,
    tldextract w url = Ok (dom, suffix)
    /\ gethostbyname w (dom ++ "." ++ suffix)%string = Raise gaierror.

(** What the methods named in the offline scenario return. *)
Definition offline_indicators (w : World) (url : string)
           (age reg_len stats : Z) : Prop :=
  AgeofDomain w (fetch w url) = Ok age
  /\ DomainRegLen (fetch w url) = Ok reg_len
  /\ StatsReport w (fetch w url) = Ok stats.

(** The offline scenario as the specification words it: a registered
    domain that does not resolve gives the status [offline] and the three
    indicators -1, -1 and 1. *)
Definition offline_scenario (w : World) (url : string) : Prop :=
  registered_domain_unresolvable w url ->
  App.status (App.fetch_url_details w url) = "offline"
  /\ offline_indicators w url (-1) (-1) 1.

(** Determinism as the specification words it: the same evidence about
    the URL gives the same instance, feature list included. *)
Definition deterministic_in_evidence (w1 w2 : World) (url : string) : Prop :=
  same_evidence w1 w2 url -> __init__ w1 url = __init__ w2 url.

(** The methods whose code has no [return 0]. *)
Definition two_valued (m : Method.t) : bool :=
  match m with
  | Method.longUrl | Method.SubDomains | Method.RequestURL
  | Method.AnchorURL | Method.LinksInScriptTags | Method.ServerFormHandler
  | Method.WebsiteForwarding | Method.WebsiteTraffic
  | Method.LinksPointingToPage => false
  | _ => true
  end.

(** The methods that read [self.url], [self.domain] and
    [self.urlparse_obj] only. *)
Definition lexical (m : Method.t) : bool :=
  match m with
  | Method.UsingIp | Method.longUrl | Method.shortUrl | Method.symbol
  | Method.redirecting | Method.prefixSuffix | Method.SubDomains
  | Method.Https | Method.NonStdPort | Method.HTTPSDomainURL => true
  | _ => false
  end.

(** A date [(year, month)] counted in months. *)
Definition months (d : Z * Z) : Z := fst d * 12 + snd d.

(** The [src]-carrying elements the two ratio methods walk through. *)
Definition src_elements (doc : Bs4.node) (tags : list string)
  : list Bs4.node :=
  flat_map (fun tag => Bs4.find_all tag "src" doc) tags.

(** ** Concrete worlds *)

Module Fixtures.

Import Bs4.

(** No service answers. *)
Definition unreachable : World :=
  {| requests_get := fun _ => Raise OSError;
     requests_post := fun _ _ => Raise OSError;
     json := fun _ => Raise ValueError;
     html_parser := fun _ => Raise ValueError;
     xml_parser := fun _ => Raise ValueError;
     ip_address_ok := fun _ => true;
     whois := fun _ => Raise OSError;
     date_today := (2026, 11);
     datetime_now := "November 03, 2026, 11:00:00 AM";
     urlopen_read := fun _ => Raise OSError;
     search := fun _ => Raise OSError;
     gethostbyname := fun _ => Raise gaierror;
     tldextract := fun _ => Ok ("example", "com") |}.

Definition set_page (body : string) (doc : node) (w : World) : World :=
  {| requests_get :=
       fun _ => Ok {| status_code := 200; text := body; history := [] |};
     requests_post := requests_post w;
     json := json w;
     html_parser := fun _ => Ok doc;
     xml_parser := xml_parser w;
     ip_address_ok := ip_address_ok w;
     whois := whois w;
     date_today := date_today w;
     datetime_now := datetime_now w;
     urlopen_read := urlopen_read w;
     search := search w;
     gethostbyname := gethostbyname w;
     tldextract := tldextract w |}.

Definition set_whois (f : string -> result WhoisEntry) (w : World) : World :=
  {| requests_get := requests_get w;
     requests_post := requests_post w;
     json := json w;
     html_parser := html_parser w;
     xml_parser := xml_parser w;
     ip_address_ok := ip_address_ok w;
     whois := f;
     date_today := date_today w;
     datetime_now := datetime_now w;
     urlopen_read := urlopen_read w;
     search := search w;
     gethostbyname := gethostbyname w;
     tldextract := tldextract w |}.

Definition set_date_today (d : Z * Z) (w : World) : World :=
  {| requests_get := requests_get w;
     requests_post := requests_post w;
     json := json w;
     html_parser := html_parser w;
     xml_parser := xml_parser w;
     ip_address_ok := ip_address_ok w;
     whois := whois w;
     date_today := d;
     datetime_now := datetime_now w;
     urlopen_read := urlopen_read w;
     search := search w;
     gethostbyname := gethostbyname w;
     tldextract := tldextract w |}.

Definition set_search (f : string -> result (list string)) (w : World)
  : World :=
  {| requests_get := requests_get w;
     requests_post := requests_post w;
     json := json w;
     html_parser := html_parser w;
     xml_parser := xml_parser w;
     ip_address_ok := ip_address_ok w;
     whois := whois w;
     date_today := date_today w;
     datetime_now := datetime_now w;
     urlopen_read := urlopen_read w;
     search := f;
     gethostbyname := gethostbyname w;
     tldextract := tldextract w |}.

Definition set_gethostbyname (f : string -> result string) (w : World)
  : World :=
  {| requests_get := requests_get w;
     requests_post := requests_post w;
     json := json w;
     html_parser := html_parser w;
     xml_parser := xml_parser w;
     ip_address_ok := ip_address_ok w;
     whois := whois w;
     date_today := date_today w;
     datetime_now := datetime_now w;
     urlopen_read := urlopen_read w;
     search := search w;
     gethostbyname := f;
     tldextract := tldextract w |}.

(** A page that loads its only image from its own site. *)
Definition own_image : node :=
  Tag "[document]" []
    [Tag "html" []
       [Tag "body" []
          [Tag "img" [("src", "http://example.com/logo.png")] []]]].

Definition self_hosted : World :=
  set_page "<html><body><img src='http://example.com/logo.png'></body></html>"
           own_image unreachable.

(** A page without an anchor. *)
Definition no_anchor : node :=
  Tag "[document]" []
    [Tag "html" [] [Tag "body" [] [Tag "p" [] [NavigableString "hello"]]]].

Definition plain : World :=
  set_page "<html><body><p>hello</p></body></html>" no_anchor unreachable.

(** A page whose first form posts to its own site and whose later forms
    have an empty and a foreign action. *)
Definition three_forms : node :=
  Tag "[document]" []
    [Tag "html" []
       [Tag "body" []
          [Tag "form" [("action", "http://example.com/login")] [];
           Tag "form" [("action", EmptyString)] [];
           Tag "form" [("action", "http://elsewhere.test/")] []]]].

Definition with_forms : World :=
  set_page "<html><body><form action='http://example.com/login'></form><form action=''></form><form action='http://elsewhere.test/'></form></body></html>"
           three_forms unreachable.

(** The same three forms with the foreign one first, and with the empty
    one first. *)
Definition foreign_form_first : node :=
  Tag "[document]" []
    [Tag "html" []
       [Tag "body" []
          [Tag "form" [("action", "http://elsewhere.test/")] [];
           Tag "form" [("action", "http://example.com/login")] [];
           Tag "form" [("action", EmptyString)] []]]].

Definition empty_form_first : node :=
  Tag "[document]" []
    [Tag "html" []
       [Tag "body" []
          [Tag "form" [("action", EmptyString)] [];
           Tag "form" [("action", "http://example.com/login")] [];
           Tag "form" [("action", "http://elsewhere.test/")] []]]].

(** A registration from January 2000 to January 2030. *)
Definition long_registered : WhoisEntry :=
  {| items := [("creation_date", PDatetime 2000 1 1);
               ("expiration_date", PDatetime 2030 1 1)];
     as_str := "{'creation_date': '2000-01-01', 'expiration_date': '2030-01-01'}" |}.

(** The registered domain does not resolve, its [www] host resolves to
    an address of the block list, and the registry knows the domain. *)
Definition parked : World :=
  set_gethostbyname
    (fun name =>
       if String.eqb name "www.example.com" then Ok "146.112.61.108"
       else Raise gaierror)
    (set_whois (fun _ => Ok long_registered) unreachable).

(** A registration of June 2026, read in November and in December 2026. *)
Definition registered_june : WhoisEntry :=
  {| items := [("creation_date", PDatetime 2026 6 15);
               ("expiration_date", PDatetime 2027 6 15)];
     as_str := "{'creation_date': '2026-06-15', 'expiration_date': '2027-06-15'}" |}.

Definition in_november : World :=
  set_whois (fun _ => Ok registered_june) unreachable.

Definition in_december : World := set_date_today (2026, 12) in_november.

(** Search services that find something, find nothing, and fail. *)
Definition indexed : World :=
  set_search (fun _ => Ok ["http://example.com/"]) unreachable.

Definition not_indexed : World := set_search (fun _ => Ok []) unreachable.

(** A search service that fails for one URL and finds every other. *)
Definition indexed_elsewhere : World :=
  set_search
    (fun q =>
       if String.eqb q "http://example.com/" then Raise OSError
       else Ok [q])
    unreachable.

(** A classifier that answers the same for every frame. *)
Definition constant_model : App.Classifier Z Z :=
  {| App.predict := fun _ => 1; App.predict_proba := fun _ => (0, 1) |}.

Fixpoint letters (n : nat) : string :=
  match n with
  | O => EmptyString
  | S n' => String "a" (letters n')
  end.

(** A URL of [19 + n] characters. *)
Definition url_of_length (n : nat) : string :=
  ("http://example.com/" ++ letters n)%string.

(** A page answered with status 404 whose body and markup would
    otherwise trigger the content methods. *)
Definition busy_markup : node :=
  Tag "[document]" []
    [Tag "html" []
       [Tag "body" []
          [Tag "iframe" [("src", "http://elsewhere.test/frame")] [];
           Tag "a" [("href", "http://elsewhere.test/")] []]]].

Definition not_found : World :=
  {| requests_get :=
       fun _ =>
         Ok {| status_code := 404;
               text := "<script>x onmouseover y</script><iframe src=f>alert(1) event.button==2 <a href=a><a href=b><a href=c>";
               history := [301; 302; 301; 302; 301] |};
     requests_post := fun _ _ => Raise OSError;
     json := fun _ => Raise ValueError;
     html_parser := fun _ => Ok busy_markup;
     xml_parser := fun _ => Raise ValueError;
     ip_address_ok := fun _ => true;
     whois := fun _ => Ok long_registered;
     date_today := (2026, 11);
     datetime_now := "November 03, 2026, 11:00:00 AM";
     urlopen_read := fun _ => Raise OSError;
     search := fun _ => Raise OSError;
     gethostbyname := fun _ => Raise gaierror;
     tldextract := fun _ => Ok ("example", "com") |}.

(** The resolver fails with an error that is no [gaierror]. *)
Definition resolver_broken : World :=
  set_gethostbyname (fun _ => Raise (ExceptionNamed "UnicodeError"))
                    unreachable.

(** The site resolves and the geolocation service answers, the registry
    does not. *)
Definition online_no_whois : World :=
  {| requests_get :=
       fun _ => Ok {| status_code := 200; text := "{}"; history := [] |};
     requests_post := fun _ _ => Raise OSError;
     json := fun _ => Ok [("country", "NL"); ("isp", "Example BV")];
     html_parser := fun _ => Ok no_anchor;
     xml_parser := fun _ => Raise ValueError;
     ip_address_ok := fun _ => true;
     whois := fun _ => Raise OSError;
     date_today := (2026, 11);
     datetime_now := "November 03, 2026, 11:00:00 AM";
     urlopen_read := fun _ => Raise OSError;
     search := fun _ => Raise OSError;
     gethostbyname := fun _ => Ok "93.184.216.34";
     tldextract := fun _ => Ok ("example", "com") |}.

End Fixtures.

(* ================================================================== *)
(** * Proofs *)
(* ================================================================== *)

Create HintDb trinary.

(** ** The model on known values *)

(** [11 / 50 * 100 == 22.0] and [1 / 3 * 100 < 61.0], as in CPython. *)
Example percentage_values :
  percentage 11 50 = Ok (float_lit 22)
  /\ by_thresholds (float_lit 22) 22 61 = 0
  /\ (exists p, percentage 1 3 = Ok p /\ by_thresholds p 22 61 = 0)
  /\ percentage 0 0 = Ok (S754_zero false).
Proof.
  repeat split; try reflexivity.
  eexists; split; reflexivity.
Qed.

(** The scenario of the specification: [http://bit.ly/abc123] matches the
    shortener pattern, is no address and has no [@]. *)
Example scenario_bit_ly :
  let self := fetch Fixtures.unreachable "http://bit.ly/abc123" in
  shortUrl self = Ok (-1) /\ UsingIp self = Ok 1 /\ symbol self = Ok 1.
Proof. cbv zeta; repeat split; reflexivity. Qed.

(** What [inet_aton] accepts: one to four parts, decimal, octal or
    hexadecimal, the last part filling the remaining bytes. *)
Example inet_aton_values :
  Socket.inet_aton "192.168.0.1" = Ok tt
  /\ Socket.inet_aton "0x7f.1" = Ok tt
  /\ Socket.inet_aton "4294967295" = Ok tt
  /\ Socket.inet_aton "1.2.3.256" = Raise OSError
  /\ Socket.inet_aton "1.2.3.4.5" = Raise OSError
  /\ Socket.inet_aton "example.com" = Raise OSError.
Proof. repeat split; reflexivity. Qed.

(** The patterns on small inputs. *)
Example pattern_values :
  Py.search onmouseover "<script>a onmouseover b</script>" = true
  /\ Py.search onmouseover "<script>onmouseover</script>" = false
  /\ Py.search right_click "if (event.button == 2)" = true
  /\ findall_count a_href "<a href=x><A  HREF=y><a>" 0 = 2
  /\ global_rank "Global Rank:  1234 of" = Some "1234"
  /\ global_rank "Global Rank: n/a" = None.
Proof. repeat split; reflexivity. Qed.

(** [int] strips U+00A0 but not the separator U+001C; [.text] leaves out
    hidden strings. *)
Example int_and_text_values :
  int_of_str (String (ascii_of_nat 160) "12 ") = Ok 12
  /\ int_of_str (String (ascii_of_nat 28) "12") = Raise ValueError
  /\ Bs4.get_text
       (Bs4.Tag "[document]" []
          [Bs4.HiddenString "mailto:a";
           Bs4.Tag "script" [] [Bs4.HiddenString "mailto:b"];
           Bs4.Tag "p" [] [Bs4.NavigableString "write to us"]])
     = "write to us".
Proof. repeat split; reflexivity. Qed.

(** ** Every method returns one of -1, 0, 1 *)

Section Trinary.

Lemma trinary_m1 : trinary (-1).
Proof. left; reflexivity. Qed.

Lemma trinary_0 : trinary 0.
Proof. right; left; reflexivity. Qed.

Lemma trinary_1 : trinary 1.
Proof. right; right; reflexivity. Qed.

Lemma returns_Ok (v : Z) : trinary v -> returns_trinary (Ok v).
Proof. intros H; exists v; split; [reflexivity | exact H]. Qed.

(** A guarded body: whatever the body does, a three-valued result comes
    out as soon as its normal results and the fallback are three-valued. *)
Lemma try_except_trinary (body : result Z) (k : Z) :
  (forall v, body = Ok v -> trinary v) ->
  trinary k ->
  returns_trinary (try_except body (Ok k)).
Proof.
  intros Hbody Hk; destruct body as [v | e]; simpl.
  - apply returns_Ok, Hbody; reflexivity.
  - apply returns_Ok, Hk.
Qed.

Lemma by_thresholds_trinary (p : float) (lo hi : Z) :
  trinary (by_thresholds p lo hi).
Proof.
  unfold by_thresholds.
  destruct (float_lt p (float_lit lo)); [apply trinary_1 |].
  destruct (float_le (float_lit lo) p && float_lt p (float_lit hi));
    [apply trinary_0 | apply trinary_m1].
Qed.

Lemma Favicon_loop_trinary (self : t) (links : list Bs4.node) (v : Z) :
  Favicon_loop self links = Ok v -> trinary v.
Proof.
  induction links as [| link links IH]; simpl; intros H.
  - injection H as <-; apply trinary_m1.
  - destruct (Bs4.getitem link "href") as [href | e]; simpl in H;
      [| discriminate].
    destruct (same_site self href); [| exact (IH H)].
    injection H as <-; apply trinary_1.
Qed.

End Trinary.

#[local] Hint Resolve trinary_m1 trinary_0 trinary_1 by_thresholds_trinary
  : trinary.

(** Splits the tests of a method body until its result is a literal. *)
Ltac split_body H :=
  unfold bind in H;
  repeat match type of H with
         | context [match ?x with _ => _ end] => destruct x eqn:?
         | context [if ?b then _ else _] => destruct b eqn:?
         end;
  try discriminate H;
  try (injection H as <-; auto with trinary).

(** A method without a guard is a cascade of tests on strings. *)
Ltac split_tests :=
  repeat match goal with
         | |- context [if ?b then _ else _] => destruct b
         | |- context [match ?x with _ => _ end] => destruct x
         end;
  apply returns_Ok; auto with trinary.

Lemma call_trinary (w : World) (self : t) (m : Method.t) :
  returns_trinary (call w self m).
Proof.
  destruct m; simpl.
  all: try (apply try_except_trinary; [intros v H | auto with trinary]).
  all: try (unfold body_matches; apply try_except_trinary;
            [intros v H | auto with trinary]).
  all: try solve [split_body H].
  - unfold longUrl; split_tests.
  - unfold shortUrl; split_tests.
  - unfold symbol; split_tests.
  - unfold redirecting; cbv zeta; split_tests.
  - unfold prefixSuffix; split_tests.
  - unfold SubDomains; cbv zeta; split_tests.
  - unfold Https; split_tests.
  - split_body H; eapply Favicon_loop_trinary; eassumption.
  - unfold NonStdPort; split_tests.
  - unfold HTTPSDomainURL; split_tests.
Qed.

(** C1.  Whatever the URL and whatever the outcome of each fetch and each
    external lookup (the instance [self] and the world [w] are arbitrary),
    each of the thirty methods of [FeatureExtraction] returns, without an
    exception leaving it, and its result is -1, 0 or 1. *)
Theorem C1_every_method_returns_trinary :
  forall (w : World) (self : t) (m : Method.t),
    exists v, call w self m = Ok v /\ (v = -1 \/ v = 0 \/ v = 1).
Proof.
  intros w self m; exact (call_trinary w self m).
Qed.

(** ** The feature list *)

(** No method reads [self.features]. *)
Lemma call_with_features (w : World) (self : t) (l : list Z) (m : Method.t) :
  call w (with_features self l) m = call w self m.
Proof. destruct m; reflexivity. Qed.

(** The appends extend the list by the results of the methods, each
    computed on the instance as the fetches left it. *)
Lemma appends_extends (w : World) (ms : list Method.t) :
  forall self : t,
  exists vs,
    appends w ms self = Ok (with_features self (features self ++ vs)%list)
    /\ map Ok vs = map (call w self) ms.
Proof.
  induction ms as [| m ms IH]; intros self.
  - exists []; split; [| reflexivity].
    simpl; rewrite app_nil_r; destruct self; reflexivity.
  - destruct (call_trinary w self m) as [v [Hv _]].
    destruct (IH (append self v)) as [vs [Hrun Hvs]].
    exists (v :: vs); split.
    + simpl; rewrite Hv; simpl; rewrite Hrun.
      unfold append; simpl; rewrite <- app_assoc; reflexivity.
    + simpl; rewrite Hv; f_equal.
      rewrite Hvs; apply map_ext; intros m'.
      unfold append; apply call_with_features.
Qed.

Lemma init_in_append_order (w : World) (url : string) :
  feature_list_in_order append_order w url.
Proof.
  unfold feature_list_in_order, __init__, getFeaturesList.
  destruct (appends_extends w append_order (fetch w url)) as [vs [Hrun Hvs]].
  eexists; split; [exact Hrun |].
  simpl; split; [| exact Hvs].
  apply (f_equal (@List.length _)) in Hvs.
  rewrite !length_map in Hvs; rewrite Hvs; reflexivity.
Qed.

Lemma features_df_thirty (l : list Z) :
  List.length l = 30%nat ->
  exists df,
    App.features_df l = Ok df
    /\ List.length df = 31%nat
    /\ map fst df = App.column_names
    /\ map snd df = 0 :: l.
Proof.
  intros Hlen.
  do 30 (destruct l as [| ? l]; [discriminate Hlen |]).
  destruct l; [| discriminate Hlen].
  eexists; repeat split; reflexivity.
Qed.

(** The thirty appends do not follow the enumeration of section 4.3: with
    no service answering, the ninth entry of the list is the registration
    length (-1), where the enumeration has the test for [https] inside the
    host (1). *)
Lemma C2_not_in_section_4_3_order :
  ~ (feature_list_in_order section_4_3_order
       Fixtures.unreachable "http://example.com/"
     /\ classifier_input_ok Fixtures.unreachable "http://example.com/").
Proof.
  intros [[fe [Hinit [_ Horder]]] _].
  vm_compute in Hinit; injection Hinit as <-.
  vm_compute in Horder; discriminate Horder.
Qed.

(** C2, amended.  For every URL and every outcome of the fetches the
    constructor returns a list of exactly thirty entries, the results of
    the methods in the order of its thirty append statements (which is the
    order of the column names, not the enumeration of section 4.3); the
    frame given to the classifier has exactly 31 columns, the zero
    placeholder first and the thirty values after it in the same order. *)
Theorem C2_thirty_features_in_append_order :
  forall (w : World) (url : string),
    feature_list_in_order append_order w url
    /\ classifier_input_ok w url.
Proof.
  intros w url; split; [apply init_in_append_order |].
  destruct (init_in_append_order w url) as [fe [Hinit [Hlen _]]].
  destruct (features_df_thirty _ Hlen) as [df Hdf].
  exists fe, df; split; [exact Hinit | exact Hdf].
Qed.

(** ** Single methods *)

(** C3.  [RequestURL] on a page whose only image comes from the page's own
    site: one resource is counted and it is counted as same-site, so no
    resource points off-site, and the method returns -1 (the specification
    expects 1, the off-site fraction being 0%).  The ratio the method forms is the
    same-site one.  Without a parsed page the method returns -1. *)
Theorem C3_RequestURL_same_site_fraction :
  let self := fetch Fixtures.self_hosted "http://example.com/" in
  soup self = Some Fixtures.own_image
  /\ count_tags self Fixtures.own_image ["img"; "audio"; "embed"; "iframe"]
                (0, 0) = Ok (1, 1)
  /\ RequestURL self = Ok (-1)
  /\ soup (fetch Fixtures.unreachable "http://example.com/") = None
  /\ RequestURL (fetch Fixtures.unreachable "http://example.com/") = Ok (-1).
Proof.
  cbv zeta; repeat split; vm_compute; reflexivity.
Qed.

(** [inet_aton] accepts no string whose first character is not a digit. *)
Lemma inet_aton_needs_digit (c : ascii) (s : string) :
  is_digit c = false -> Socket.inet_aton (String c s) <> Ok tt.
Proof.
  intros Hc; unfold Socket.inet_aton.
  destruct (Socket.has_nul (String c s)); [discriminate |].
  unfold Socket.aton_parts; rewrite Hc; simpl; discriminate.
Qed.

Lemma UsingIp_no_digit (self : t) (c : ascii) (s : string) :
  url self = String c s -> is_digit c = false -> UsingIp self = Ok 1.
Proof.
  intros Hurl Hc; unfold UsingIp; rewrite Hurl.
  pose proof (inet_aton_needs_digit c s Hc) as Hno.
  destruct (Socket.inet_aton (String c s)) as [[] | e];
    [contradiction Hno; reflexivity | reflexivity].
Qed.

Lemma low_code_no_digit (c : ascii) : (code c <=? 32) = true -> is_digit c = false.
Proof.
  intros H; apply Z.leb_le in H; unfold is_digit, between.
  destruct (48 <=? code c) eqn:E; [apply Z.leb_le in E; lia | reflexivity].
Qed.

Lemma alpha_no_digit (c : ascii) : is_alpha_ascii c = true -> is_digit c = false.
Proof.
  unfold is_alpha_ascii, is_digit, between; intros H.
  destruct (48 <=? code c) eqn:E1; [| reflexivity].
  destruct (code c <=? 57) eqn:E2; [| reflexivity].
  apply Z.leb_le in E1, E2.
  apply orb_true_iff in H; destruct H as [H | H];
    apply andb_true_iff in H; destruct H as [H1 H2];
    apply Z.leb_le in H1, H2; lia.
Qed.

(** A URL in which [urlparse] finds a scheme does not start with a digit. *)
Lemma scheme_no_digit (f : string -> bool) (c : ascii) (s : string)
      (p : Urllib.ParseResult) :
  Urllib.urlparse f (String c s) = Ok p ->
  Urllib.scheme p <> EmptyString ->
  is_digit c = false.
Proof.
  intros Hparse Hscheme.
  destruct (code c <=? 32) eqn:Hlow; [apply low_code_no_digit, Hlow |].
  destruct (is_alpha_ascii c) eqn:Halpha; [apply alpha_no_digit, Halpha |].
  exfalso; apply Hscheme.
  unfold Urllib.urlparse in Hparse; simpl drop_while in Hparse.
  rewrite Hlow in Hparse; simpl remove_chrs in Hparse.
  assert (Hkeep : (code c =? 9) || (code c =? 13) || (code c =? 10) = false).
  { apply Z.leb_gt in Hlow.
    destruct (code c =? 9) eqn:E1; [apply Z.eqb_eq in E1; lia |].
    destruct (code c =? 13) eqn:E2; [apply Z.eqb_eq in E2; lia |].
    destruct (code c =? 10) eqn:E3; [apply Z.eqb_eq in E3; lia |].
    reflexivity. }
  rewrite Hkeep in Hparse.
  set (body := remove_chrs _ s) in Hparse.
  assert (Hsch :
    (match String c body, Urllib.split_colon (String c body) with
     | String c0 _, Some (String a b, after) =>
         if is_alpha_ascii c0 && all_chrs Urllib.scheme_chr (String a b)
         then (lower (String a b), after)
         else (EmptyString, String c body)
     | _, _ => (EmptyString, String c body)
     end) = (EmptyString, String c body)).
  { destruct (Urllib.split_colon (String c body)) as [[[| a b] after] |];
      try reflexivity.
    rewrite Halpha; reflexivity. }
  rewrite Hsch in Hparse.
  repeat match type of Hparse with
         | context [match ?x with _ => _ end] => destruct x
         | context [if ?b then _ else _] => destruct b
         end;
    try discriminate Hparse; injection Hparse as <-; reflexivity.
Qed.

(** On every URL [index] passes on, [UsingIp] returns 1: the URL either
    carries a scheme, or [validate_url] has put [http://] before it. *)
Lemma UsingIp_after_validate_url (w : World) (raw url : string) :
  App.validate_url w raw = Ok url ->
  UsingIp (fetch w url) = Ok 1.
Proof.
  unfold App.validate_url, bind; intros H.
  destruct (Urllib.urlparse (ip_address_ok w) raw) as [p | e] eqn:Hparse;
    [| discriminate H].
  destruct (String.eqb (Urllib.scheme p) EmptyString) eqn:Hsch;
    injection H as <-.
  - apply (UsingIp_no_digit _ "h" ("ttp://" ++ raw)%string); reflexivity.
  - apply String.eqb_neq in Hsch.
    destruct raw as [| c s].
    + exfalso; apply Hsch; vm_compute in Hparse; injection Hparse as <-;
        reflexivity.
    + apply (UsingIp_no_digit _ c s); [reflexivity |].
      exact (scheme_no_digit _ c s p Hparse Hsch).
Qed.

(** C4.  [UsingIp] on the URL [index] builds from the input
    [192.168.0.1]: the host component is that address, which [inet_aton]
    accepts, and the method returns 1 (the specification expects -1).  The method gives
    the whole URL to [inet_aton], which the scheme makes fail. *)
Theorem C4_UsingIp_reads_whole_url :
  forall w : World,
    App.validate_url w "192.168.0.1" = Ok "http://192.168.0.1"
    /\ domain (fetch w "http://192.168.0.1") = "192.168.0.1"
    /\ Socket.inet_aton (domain (fetch w "http://192.168.0.1")) = Ok tt
    /\ Socket.inet_aton (url (fetch w "http://192.168.0.1")) = Raise OSError
    /\ UsingIp (fetch w "http://192.168.0.1") = Ok 1.
Proof.
  intros w; repeat split; reflexivity.
Qed.

(** C6.  [GoogleIndex] returns 1 when the search yields at least one
    result, -1 when it yields none, and 1 when the search raises. *)
Theorem C6_GoogleIndex_asymmetric_fallback :
  forall (w : World) (self : t),
    (forall r rs, search w (url self) = Ok (r :: rs) ->
                  GoogleIndex w self = Ok 1)
    /\ (search w (url self) = Ok [] -> GoogleIndex w self = Ok (-1))
    /\ (forall e, search w (url self) = Raise e -> GoogleIndex w self = Ok 1).
Proof.
  intros w self; unfold GoogleIndex; repeat split; intros;
    match goal with H : search _ _ = _ |- _ => rewrite H end; reflexivity.
Qed.

Lemma C6_GoogleIndex_witness :
  GoogleIndex Fixtures.indexed (fetch Fixtures.indexed "http://example.com/")
  = Ok 1
  /\ GoogleIndex Fixtures.not_indexed
       (fetch Fixtures.not_indexed "http://example.com/") = Ok (-1)
  /\ GoogleIndex Fixtures.unreachable
       (fetch Fixtures.unreachable "http://example.com/") = Ok 1.
Proof.
  split; [| split].
  - apply (proj1 (C6_GoogleIndex_asymmetric_fallback Fixtures.indexed _)
                 "http://example.com/" []); reflexivity.
  - apply (proj1 (proj2 (C6_GoogleIndex_asymmetric_fallback
                           Fixtures.not_indexed _))); reflexivity.
  - apply (proj2 (proj2 (C6_GoogleIndex_asymmetric_fallback
                           Fixtures.unreachable _)) OSError); reflexivity.
Defined.

(** C7.  On a parsed page with no [a] tag carrying [href], [AnchorURL]
    returns 1: the ratio is taken as zero, and the result is not the
    fallback -1. *)
Theorem C7_AnchorURL_no_anchor :
  forall (self : t) (doc : Bs4.node),
    soup self = Some doc ->
    Bs4.find_all "a" "href" doc = [] ->
    AnchorURL self = Ok 1.
Proof.
  intros self doc Hsoup Hnone; unfold AnchorURL.
  rewrite Hsoup, Hnone; reflexivity.
Qed.

Lemma C7_AnchorURL_witness :
  AnchorURL (fetch Fixtures.plain "http://example.com/") = Ok 1.
Proof.
  apply (C7_AnchorURL_no_anchor _ Fixtures.no_anchor); reflexivity.
Defined.

(** C8.  [longUrl] returns 1 for a URL shorter than 60 characters, 0 for
    60 to 100 characters and -1 for more than 100; so 59, 60, 100 and 101
    characters give 1, 0, 0 and -1. *)
Theorem C8_longUrl_thresholds :
  forall self : t,
    (len (url self) < 60 -> longUrl self = Ok 1)
    /\ (60 <= len (url self) <= 100 -> longUrl self = Ok 0)
    /\ (100 < len (url self) -> longUrl self = Ok (-1))
    /\ (len (url self) = 59 -> longUrl self = Ok 1)
    /\ (len (url self) = 60 -> longUrl self = Ok 0)
    /\ (len (url self) = 100 -> longUrl self = Ok 0)
    /\ (len (url self) = 101 -> longUrl self = Ok (-1)).
Proof.
  intros self; unfold longUrl.
  destruct (len (url self) <? 60) eqn:E1;
    destruct (60 <=? len (url self)) eqn:E2;
    destruct (len (url self) <=? 100) eqn:E3; simpl;
    try apply Z.ltb_lt in E1; try apply Z.ltb_ge in E1;
    try apply Z.leb_le in E2; try apply Z.leb_gt in E2;
    try apply Z.leb_le in E3; try apply Z.leb_gt in E3;
    repeat split; intros; solve [reflexivity | lia].
Qed.

Lemma C8_longUrl_witness :
  longUrl (fetch Fixtures.unreachable (Fixtures.url_of_length 40)) = Ok 1
  /\ longUrl (fetch Fixtures.unreachable (Fixtures.url_of_length 41)) = Ok 0
  /\ longUrl (fetch Fixtures.unreachable (Fixtures.url_of_length 81)) = Ok 0
  /\ longUrl (fetch Fixtures.unreachable (Fixtures.url_of_length 82)) = Ok (-1).
Proof.
  split; [| split; [| split]].
  - destruct (C8_longUrl_thresholds
                (fetch Fixtures.unreachable (Fixtures.url_of_length 40)))
      as (_ & _ & _ & H59 & _).
    apply H59; reflexivity.
  - destruct (C8_longUrl_thresholds
                (fetch Fixtures.unreachable (Fixtures.url_of_length 41)))
      as (_ & _ & _ & _ & H60 & _).
    apply H60; reflexivity.
  - destruct (C8_longUrl_thresholds
                (fetch Fixtures.unreachable (Fixtures.url_of_length 81)))
      as (_ & _ & _ & _ & _ & H100 & _).
    apply H100; reflexivity.
  - destruct (C8_longUrl_thresholds
                (fetch Fixtures.unreachable (Fixtures.url_of_length 82)))
      as (_ & _ & _ & _ & _ & _ & H101).
    apply H101; reflexivity.
Defined.

(** C10.  [ServerFormHandler] is decided solely by the first [form] that
    carries an [action], whatever the later forms are: it returns -1 when
    that action is empty or [about:blank], 1 when it contains the URL or
    the domain, and 0 otherwise.  In particular, a first form with a
    same-site action that is not empty and not [about:blank] gives 1 even
    if later forms have empty, [about:blank] or off-site actions. *)
Theorem C10_ServerFormHandler_first_form :
  forall (self : t) (doc form : Bs4.node) (later : list Bs4.node)
         (action : string),
    soup self = Some doc ->
    Bs4.find_all "form" "action" doc = form :: later ->
    Bs4.getitem form "action" = Ok action ->
    ServerFormHandler self
    = Ok (if String.eqb action EmptyString || String.eqb action "about:blank"
          then -1
          else if same_site self action then 1 else 0)
    /\ (action <> EmptyString ->
        action <> "about:blank" ->
        same_site self action = true ->
        ServerFormHandler self = Ok 1).
Proof.
  intros self doc form later action Hsoup Hforms Haction.
  assert (Hfull :
    ServerFormHandler self
    = Ok (if String.eqb action EmptyString || String.eqb action "about:blank"
          then -1
          else if same_site self action then 1 else 0)).
  { unfold ServerFormHandler; rewrite Hsoup, Hforms, Haction; simpl.
    destruct (String.eqb action EmptyString || String.eqb action "about:blank");
      [reflexivity |].
    unfold same_site.
    destruct (str_in (url self) action), (str_in (domain self) action);
      reflexivity. }
  split; [exact Hfull |].
  intros Hne Hnb Hsite; rewrite Hfull.
  apply String.eqb_neq in Hne, Hnb; rewrite Hne, Hnb, Hsite; reflexivity.
Qed.

Lemma C10_ServerFormHandler_witness :
  ServerFormHandler (fetch Fixtures.with_forms "http://example.com/") = Ok 1
  /\ ServerFormHandler
       (fetch (Fixtures.set_page "<html></html>" Fixtures.foreign_form_first
                                 Fixtures.unreachable)
              "http://example.com/") = Ok 0
  /\ ServerFormHandler
       (fetch (Fixtures.set_page "<html></html>" Fixtures.empty_form_first
                                 Fixtures.unreachable)
              "http://example.com/") = Ok (-1).
Proof.
  split; [| split].
  - apply (C10_ServerFormHandler_first_form
             (fetch Fixtures.with_forms "http://example.com/")
             Fixtures.three_forms
             (Bs4.Tag "form" [("action", "http://example.com/login")] [])
             [Bs4.Tag "form" [("action", EmptyString)] [];
              Bs4.Tag "form" [("action", "http://elsewhere.test/")] []]
             "http://example.com/login");
      solve [reflexivity | discriminate].
  - apply (C10_ServerFormHandler_first_form
             (fetch (Fixtures.set_page "<html></html>"
                       Fixtures.foreign_form_first Fixtures.unreachable)
                    "http://example.com/")
             Fixtures.foreign_form_first
             (Bs4.Tag "form" [("action", "http://elsewhere.test/")] [])
             [Bs4.Tag "form" [("action", "http://example.com/login")] [];
              Bs4.Tag "form" [("action", EmptyString)] []]
             "http://elsewhere.test/"); reflexivity.
  - apply (C10_ServerFormHandler_first_form
             (fetch (Fixtures.set_page "<html></html>"
                       Fixtures.empty_form_first Fixtures.unreachable)
                    "http://example.com/")
             Fixtures.empty_form_first
             (Bs4.Tag "form" [("action", EmptyString)] [])
             [Bs4.Tag "form" [("action", "http://example.com/login")] [];
              Bs4.Tag "form" [("action", "http://elsewhere.test/")] []]
             EmptyString); reflexivity.
Defined.

(** ** The request handler *)

(** The analysis of [index] always reaches the classifier. *)
Lemma analyse_returns {label prob : Type} (gbc : App.Classifier label prob)
      (w : World) (url : string) :
  exists fe df,
    __init__ w url = Ok fe
    /\ App.features_df (getFeaturesList fe) = Ok df
    /\ App.analyse gbc w url
       = Ok (App.predict gbc df, snd (App.predict_proba gbc df)).
Proof.
  destruct (init_in_append_order w url) as [fe [Hinit [Hlen _]]].
  destruct (features_df_thirty _ Hlen) as [df [Hdf _]].
  exists fe, df; repeat split; try assumption.
  unfold App.analyse; rewrite Hinit; simpl; rewrite Hdf; reflexivity.
Qed.

Lemma fetch_url_details_offline (w : World) (url : string) :
  registered_domain_unresolvable w url ->
  App.fetch_url_details w url = App.unavailable w "offline" None url.
Proof.
  intros [dom [suffix [Htld Hdns]]].
  unfold App.fetch_url_details; rewrite Htld, Hdns; reflexivity.
Qed.

(** Without a WHOIS entry both registration methods return -1. *)
Lemma registration_without_whois (w : World) (self : t) :
  whois_response self = None ->
  AgeofDomain w self = Ok (-1) /\ DomainRegLen self = Ok (-1).
Proof.
  intros H; unfold AgeofDomain, DomainRegLen; rewrite H; split; reflexivity.
Qed.

(** When the host of the URL does not resolve, [StatsReport] returns 1,
    also for a URL of the block list. *)
Lemma StatsReport_unresolved (w : World) (self : t) (e : exn) :
  gethostbyname w (domain self) = Raise e -> StatsReport w self = Ok 1.
Proof.
  intros H; unfold StatsReport; cbv zeta; rewrite H; reflexivity.
Qed.

(** The offline scenario fails where the registry and the resolver
    disagree: the registered domain [example.com] does not resolve, the
    status is [offline], yet WHOIS answers, so the age and the registration
    length are 1, and the host [www.example.com] resolves to a listed
    address, so the block-list method returns -1. *)
Lemma C5_offline_scenario_fails :
  ~ offline_scenario Fixtures.parked "http://www.example.com".
Proof.
  intros H.
  assert (Hdns : registered_domain_unresolvable Fixtures.parked
                   "http://www.example.com").
  { exists "example", "com"; split; reflexivity. }
  destruct (H Hdns) as [_ [Hage _]].
  vm_compute in Hage; discriminate Hage.
Qed.

(** C5, amended.  When resolving the registered domain fails, the response
    reports the status [offline] and the classification still runs to its
    end: [index] renders the verdict of the classifier with the offline
    flag.  The age and the registration length are -1 when the WHOIS lookup
    gave no entry (they do not depend on the resolver), and the block-list
    method returns 1 when resolving the host of the URL fails. *)
Theorem C5_offline_still_classified :
  forall (label prob : Type) (gbc : App.Classifier label prob) (w : World)
         (form : list (string * string)) (url : string),
    App.validate_url w (App.get form "url" EmptyString) = Ok url ->
    registered_domain_unresolvable w url ->
    App.status (App.fetch_url_details w url) = "offline"
    /\ (exists prediction pro_non_phishing,
          App.analyse gbc w url = Ok (prediction, pro_non_phishing)
          /\ App.index gbc w (App.POST form)
             = Ok (App.Verdict true url (App.fetch_url_details w url)
                               pro_non_phishing prediction))
    /\ (whois_response (fetch w url) = None ->
        AgeofDomain w (fetch w url) = Ok (-1)
        /\ DomainRegLen (fetch w url) = Ok (-1))
    /\ (forall e, gethostbyname w (domain (fetch w url)) = Raise e ->
                  StatsReport w (fetch w url) = Ok 1).
Proof.
  intros label prob gbc w form url Hurl Hdns.
  pose proof (fetch_url_details_offline w url Hdns) as Hinfo.
  split; [rewrite Hinfo; reflexivity |].
  split; [| split].
  - destruct (analyse_returns gbc w url) as [fe [df [_ [_ Hrun]]]].
    do 2 eexists; split; [exact Hrun |].
    unfold App.index; rewrite Hurl; simpl; rewrite Hrun, Hinfo; reflexivity.
  - apply registration_without_whois.
  - intros e; apply StatsReport_unresolved.
Qed.

Lemma C5_offline_witness :
  App.status (App.fetch_url_details Fixtures.unreachable "http://example.com")
  = "offline"
  /\ App.index Fixtures.constant_model Fixtures.unreachable
       (App.POST [("url", "example.com")])
     = Ok (App.Verdict true "http://example.com"
             (App.fetch_url_details Fixtures.unreachable "http://example.com")
             1 1)
  /\ AgeofDomain Fixtures.unreachable
       (fetch Fixtures.unreachable "http://example.com") = Ok (-1)
  /\ StatsReport Fixtures.unreachable
       (fetch Fixtures.unreachable "http://example.com") = Ok 1.
Proof.
  assert (Hurl : App.validate_url Fixtures.unreachable
                   (App.get [("url", "example.com")] "url" EmptyString)
                 = Ok "http://example.com") by reflexivity.
  assert (Hdns : registered_domain_unresolvable Fixtures.unreachable
                   "http://example.com").
  { exists "example", "com"; split; reflexivity. }
  destruct (C5_offline_still_classified Z Z Fixtures.constant_model
              Fixtures.unreachable [("url", "example.com")]
              "http://example.com" Hurl Hdns)
    as (Hstatus & (prediction & p & Hrun & Hindex) & Hwhois & Hstats).
  split; [exact Hstatus |].
  split; [| split].
  - vm_compute in Hrun; injection Hrun as <- <-; exact Hindex.
  - apply Hwhois; reflexivity.
  - apply (Hstats gaierror); reflexivity.
Defined.

(** ** Determinism *)

Section Determinism.

Variables w1 w2 : World.
Variable u : string.
Hypothesis evidence : same_evidence w1 w2 u.

(** The fetches of the constructor leave the same instance. *)
Lemma fetch_same : fetch w1 u = fetch w2 u.
Proof.
  destruct evidence as [Hparse Hget Hsoup Hwhois _ _ _ _ _].
  unfold fetch in *; simpl in Hwhois.
  rewrite <- Hparse, <- Hwhois, <- Hget.
  destruct (requests_get w1 u) as [r | e] eqn:Hr; [| reflexivity].
  rewrite (Hsoup r eq_refl); reflexivity.
Qed.

Hypothesis same_day : date_today w1 = date_today w2.

(** Each method returns the same in both worlds. *)
Lemma call_same (m : Method.t) :
  call w1 (fetch w1 u) m = call w2 (fetch w1 u) m.
Proof.
  destruct evidence as [_ _ _ _ Htraffic Hxml Hrank Hsearch Haddress].
  destruct m; try reflexivity; simpl.
  - unfold AgeofDomain; rewrite same_day; reflexivity.
  - unfold DNSRecording, AgeofDomain; rewrite same_day; reflexivity.
  - unfold WebsiteTraffic; cbv zeta.
    change (url (fetch w1 u)) with u.
    fold (alexa_url u); rewrite <- Htraffic.
    destruct (urlopen_read w1 (alexa_url u)) as [x | e] eqn:Hx;
      [| reflexivity].
    simpl; rewrite (Hxml x eq_refl); reflexivity.
  - unfold PageRank; rewrite Hrank; reflexivity.
  - unfold GoogleIndex.
    change (url (fetch w1 u)) with u.
    rewrite Hsearch; reflexivity.
  - unfold StatsReport; cbv zeta; rewrite Haddress; reflexivity.
Qed.

Lemma init_same : __init__ w1 u = __init__ w2 u.
Proof.
  unfold __init__; rewrite <- fetch_same.
  destruct (appends_extends w1 append_order (fetch w1 u))
    as [vs1 [Hrun1 Hvs1]].
  destruct (appends_extends w2 append_order (fetch w1 u))
    as [vs2 [Hrun2 Hvs2]].
  rewrite Hrun1, Hrun2.
  assert (Heq : map (@Ok Z) vs1 = map (@Ok Z) vs2).
  { rewrite Hvs1, Hvs2; apply map_ext; exact call_same. }
  assert (Hinj : forall l1 l2 : list Z,
             map (@Ok Z) l1 = map (@Ok Z) l2 -> l1 = l2).
  { induction l1 as [| a l1 IH]; intros [| b l2] H; try discriminate H;
      [reflexivity |].
    simpl in H; injection H as -> H; f_equal; exact (IH _ H). }
  rewrite (Hinj _ _ Heq); reflexivity.
Qed.

End Determinism.

(** The feature list also depends on the day of the run, which is no part
    of the evidence: for a domain registered in June 2026 every request is
    answered alike in November and in December 2026, and the age of the
    domain is -1 in the first month and 1 in the second. *)
Lemma C9_not_deterministic_in_evidence :
  ~ deterministic_in_evidence Fixtures.in_november Fixtures.in_december
      "http://example.com/".
Proof.
  intros H.
  assert (Hev : same_evidence Fixtures.in_november Fixtures.in_december
                  "http://example.com/").
  { split; intros; reflexivity. }
  specialize (H Hev); vm_compute in H; discriminate H.
Qed.

(** C9, amended.  Two runs on the same URL with the same evidence (the
    same parse of the URL and the same answers for the page, its markup,
    WHOIS and the external lookups), in the same month of the same year,
    and with the same classifier, produce the same thirty-value feature
    list and the same label and probability. *)
Theorem C9_deterministic_in_evidence_and_date :
  forall (w1 w2 : World) (url : string),
    same_evidence w1 w2 url ->
    date_today w1 = date_today w2 ->
    __init__ w1 url = __init__ w2 url
    /\ forall (label prob : Type) (gbc : App.Classifier label prob),
         App.analyse gbc w1 url = App.analyse gbc w2 url.
Proof.
  intros w1 w2 url Hev Hday.
  pose proof (init_same w1 w2 url Hev Hday) as Hinit.
  split; [exact Hinit |].
  intros label prob gbc; unfold App.analyse; rewrite Hinit; reflexivity.
Qed.

Lemma C9_deterministic_witness :
  __init__ Fixtures.unreachable "http://example.com/"
  = __init__ Fixtures.indexed_elsewhere
         "http://example.com/"
  /\ App.analyse Fixtures.constant_model Fixtures.unreachable
       "http://example.com/"
     = App.analyse Fixtures.constant_model
         Fixtures.indexed_elsewhere
         "http://example.com/".
Proof.
  assert (Hev : same_evidence Fixtures.unreachable
                  Fixtures.indexed_elsewhere
                  "http://example.com/").
  { split; intros; reflexivity. }
  destruct (C9_deterministic_in_evidence_and_date _ _ _ Hev eq_refl)
    as [Hinit Hrun].
  split; [exact Hinit | exact (Hrun Z Z Fixtures.constant_model)].
Defined.

(* ================================================================== *)
(** * Further properties of [app.py] *)
(* ================================================================== *)

Lemma UsingIp_after_validate_url_witness :
  UsingIp (fetch Fixtures.unreachable "http://192.168.0.1") = Ok 1.
Proof.
  apply (UsingIp_after_validate_url Fixtures.unreachable "192.168.0.1");
    reflexivity.
Defined.

(** ** [validate_url] *)

(** A URL that begins with [http://] parses with that scheme, if it
    parses. *)
Lemma urlparse_http_prefix (f : string -> bool) (raw : string)
      (p : Urllib.ParseResult) :
  Urllib.urlparse f ("http://" ++ raw) = Ok p -> Urllib.scheme p = "http".
Proof.
  unfold Urllib.urlparse; simpl; intros H.
  repeat match type of H with
         | context [if ?b then _ else _] => destruct b
         end;
    try discriminate H; injection H as <-; reflexivity.
Qed.

(** What [validate_url] returns carries a scheme whenever it parses, so
    validating it again, as [capture_screenshot] does, never puts [http://]
    before it a second time: the second call returns the URL unchanged when
    [urlparse] accepts it and raises the exception of [urlparse] otherwise.
    It does return when the submitted string had a scheme of its own. *)
Theorem validate_url_never_prefixes_twice :
  forall (w : World) (raw url : string),
    App.validate_url w raw = Ok url ->
    (forall p, Urllib.urlparse (ip_address_ok w) url = Ok p ->
               Urllib.scheme p <> EmptyString)
    /\ App.validate_url w url
       = match Urllib.urlparse (ip_address_ok w) url with
         | Ok _ => Ok url
         | Raise e => Raise e
         end
    /\ (forall p, Urllib.urlparse (ip_address_ok w) raw = Ok p ->
                  Urllib.scheme p <> EmptyString ->
                  App.validate_url w url = Ok url).
Proof.
  intros w raw url H.
  assert (Hscheme : forall p, Urllib.urlparse (ip_address_ok w) url = Ok p ->
                              Urllib.scheme p <> EmptyString).
  { unfold App.validate_url, bind in H.
    destruct (Urllib.urlparse (ip_address_ok w) raw) as [p0 | e] eqn:Hraw;
      [| discriminate H].
    destruct (String.eqb (Urllib.scheme p0) EmptyString) eqn:Hsch;
      injection H as <-; intros p Hp.
    - rewrite (urlparse_http_prefix _ _ _ Hp); discriminate.
    - rewrite Hraw in Hp; injection Hp as <-.
      apply String.eqb_neq, Hsch. }
  assert (Hagain :
    App.validate_url w url
    = match Urllib.urlparse (ip_address_ok w) url with
      | Ok _ => Ok url
      | Raise e => Raise e
      end).
  { unfold App.validate_url, bind.
    destruct (Urllib.urlparse (ip_address_ok w) url) as [p | e] eqn:Hp;
      [| reflexivity].
    specialize (Hscheme p eq_refl); apply String.eqb_neq in Hscheme.
    rewrite Hscheme; reflexivity. }
  split; [exact Hscheme |].
  split; [exact Hagain |].
  intros p Hp Hsch.
  assert (Hsame : url = raw).
  { unfold App.validate_url, bind in H; rewrite Hp in H.
    apply String.eqb_neq in Hsch; rewrite Hsch in H.
    injection H as <-; reflexivity. }
  rewrite Hagain, Hsame, Hp; reflexivity.
Qed.

Lemma validate_url_never_prefixes_twice_witness :
  App.validate_url Fixtures.unreachable "http://example.com/a"
  = Ok "http://example.com/a"
  /\ App.validate_url Fixtures.unreachable "https://example.com/a"
     = Ok "https://example.com/a"
  /\ App.validate_url Fixtures.unreachable "http://[::1" = Raise ValueError.
Proof.
  split; [| split].
  - destruct (validate_url_never_prefixes_twice Fixtures.unreachable
                "example.com/a" "http://example.com/a" eq_refl)
      as (_ & Hagain & _).
    rewrite Hagain; reflexivity.
  - destruct (validate_url_never_prefixes_twice Fixtures.unreachable
                "https://example.com/a" "https://example.com/a" eq_refl)
      as (_ & _ & Hown).
    apply (Hown {| Urllib.scheme := "https"; Urllib.netloc := "example.com";
                   Urllib.rest := "/a" |}); [reflexivity | discriminate].
  - destruct (validate_url_never_prefixes_twice Fixtures.unreachable
                "[::1" "http://[::1" eq_refl) as (_ & Hagain & _).
    rewrite Hagain; reflexivity.
Defined.

(** ** [index] *)

(** A POST whose URL [urlparse] accepts is always answered with a verdict:
    the constructor, the reshape and the frame never raise, so the handler
    of [index] that renders the error page is not reached, and the offline
    flag is set exactly for the status [offline].  A POST whose URL
    [urlparse] rejects makes [index] itself raise: [validate_url] is called
    before the [try]. *)
Theorem index_verdict_or_raise :
  forall (label prob : Type) (gbc : App.Classifier label prob) (w : World)
         (form : list (string * string)),
    match App.validate_url w (App.get form "url" EmptyString) with
    | Ok url =>
        exists prediction pro_non_phishing,
          App.index gbc w (App.POST form)
          = Ok (App.Verdict
                  (String.eqb (App.status (App.fetch_url_details w url))
                              "offline")
                  url (App.fetch_url_details w url)
                  pro_non_phishing prediction)
    | Raise e => App.index gbc w (App.POST form) = Raise e
    end.
Proof.
  intros label prob gbc w form; unfold App.index.
  destruct (App.validate_url w (App.get form "url" EmptyString))
    as [url | e]; [| reflexivity].
  destruct (analyse_returns gbc w url) as [fe [df [_ [_ Hrun]]]].
  simpl; rewrite Hrun.
  do 2 eexists.
  destruct (String.eqb (App.status (App.fetch_url_details w url)) "offline");
    reflexivity.
Qed.

(** ** [fetch_url_details] *)

(** [fetch_url_details] never raises and always returns one of the three
    statuses with the URL it was given; the error field is set exactly for
    the status [error], and unless the status is [online] every detail is
    [Unavailable] and there is no redirected URL. *)
Theorem fetch_url_details_statuses :
  forall (w : World) (url : string),
    let info := App.fetch_url_details w url in
    App.source_url info = url
    /\ App.detection_date info = datetime_now w
    /\ ((App.status info = "online" /\ App.error info = None
         /\ App.redirected_url info = Some url)
        \/ ((App.status info = "offline" /\ App.error info = None
             \/ App.status info = "error" /\ App.error info <> None)
            /\ App.redirected_url info = None
            /\ App.ip_address info = "Unavailable"
            /\ App.certificate_details info = "Unavailable"
            /\ App.location info = "Unavailable"
            /\ App.hosting_provider info = "Unavailable"
            /\ App.asn info = PStr "Unavailable")).
Proof.
  intros w url; cbv zeta; unfold App.fetch_url_details.
  destruct (tldextract w url) as [[dom suffix] | e1].
  2: { simpl; repeat split; right; repeat split; right; split;
       [reflexivity | discriminate]. }
  destruct (gethostbyname w (dom ++ "." ++ suffix)%string) as [ip | e2].
  2: { destruct (is_gaierror e2); simpl; repeat split; right; repeat split;
       [left; split; reflexivity
       | right; split; [reflexivity | discriminate]]. }
  destruct (bind (requests_get w ("http://ip-api.com/json/" ++ ip)%string)
                 (fun r => json w (text r))) as [geo | e3].
  - simpl; repeat split; left; repeat split.
  - simpl; repeat split; right; repeat split; right; split;
      [reflexivity | discriminate].
Qed.

(** Of the exceptions of the resolver only [gaierror] means [offline], any
    other one gives the status [error]; and once the address and its
    geolocation are known, a failing WHOIS lookup does not change the
    status [online]: the ASN is [N/A]. *)
Theorem fetch_url_details_resolver_and_whois :
  forall (w : World) (url dom suffix : string),
    tldextract w url = Ok (dom, suffix) ->
    (forall e, gethostbyname w (dom ++ "." ++ suffix)%string = Raise e ->
               App.status (App.fetch_url_details w url)
               = if is_gaierror e then "offline" else "error")
    /\ (forall ip r geo e,
          gethostbyname w (dom ++ "." ++ suffix)%string = Ok ip ->
          requests_get w ("http://ip-api.com/json/" ++ ip)%string = Ok r ->
          json w (text r) = Ok geo ->
          whois w (dom ++ "." ++ suffix)%string = Raise e ->
          App.status (App.fetch_url_details w url) = "online"
          /\ App.ip_address (App.fetch_url_details w url) = ip
          /\ App.asn (App.fetch_url_details w url) = PStr "N/A").
Proof.
  intros w url dom suffix Htld; unfold App.fetch_url_details; rewrite Htld.
  split.
  - intros e He; rewrite He; destruct (is_gaierror e); reflexivity.
  - intros ip r geo e Hip Hr Hgeo Hwhois.
    rewrite Hip, Hr; unfold bind; rewrite Hgeo, Hwhois; repeat split.
Qed.

Lemma fetch_url_details_resolver_and_whois_witness :
  App.status (App.fetch_url_details Fixtures.unreachable "http://example.com")
  = "offline"
  /\ App.status (App.fetch_url_details Fixtures.resolver_broken
                   "http://example.com") = "error"
  /\ App.status (App.fetch_url_details Fixtures.online_no_whois
                   "http://example.com") = "online"
  /\ App.asn (App.fetch_url_details Fixtures.online_no_whois
                "http://example.com") = PStr "N/A".
Proof.
  split; [| split].
  - destruct (fetch_url_details_resolver_and_whois Fixtures.unreachable
                "http://example.com" "example" "com" eq_refl) as [H _].
    exact (H gaierror eq_refl).
  - destruct (fetch_url_details_resolver_and_whois Fixtures.resolver_broken
                "http://example.com" "example" "com" eq_refl) as [H _].
    exact (H (ExceptionNamed "UnicodeError") eq_refl).
  - destruct (fetch_url_details_resolver_and_whois Fixtures.online_no_whois
                "http://example.com" "example" "com" eq_refl) as [_ H].
    destruct (H "93.184.216.34"
                {| status_code := 200; text := "{}"; history := [] |}
                [("country", "NL"); ("isp", "Example BV")] OSError
                eq_refl eq_refl eq_refl eq_refl) as (Hs & _ & Ha).
    split; [exact Hs | exact Ha].
Defined.

(** ** The frame for the classifier *)

(** The frame is built exactly for lists of thirty values; a list of any
    other length makes the reshape raise [ValueError]. *)
Theorem features_df_needs_thirty :
  forall l : list Z,
    match App.features_df l with
    | Ok df =>
        List.length l = 30%nat
        /\ map fst df = App.column_names /\ map snd df = 0 :: l
    | Raise e => List.length l <> 30%nat /\ e = ValueError
    end.
Proof.
  intros l.
  destruct (Nat.eq_dec (List.length l) 30) as [Hlen | Hlen].
  - destruct (features_df_thirty l Hlen) as [df [Hdf [_ [Hn Hv]]]].
    rewrite Hdf; repeat split; assumption.
  - unfold App.features_df, App.reshape_1_30.
    apply Nat.eqb_neq in Hlen; rewrite Hlen; simpl.
    apply Nat.eqb_neq in Hlen; split; [exact Hlen | reflexivity].
Qed.

(* ================================================================== *)
(** * Further properties of [feature.py] *)
(* ================================================================== *)

(** ** Methods that never return 0 *)

Lemma try_except_two_valued (body : result Z) (k : Z) :
  (forall v, body = Ok v -> v = -1 \/ v = 1) ->
  k = -1 \/ k = 1 ->
  exists v, try_except body (Ok k) = Ok v /\ (v = -1 \/ v = 1).
Proof.
  intros Hbody Hk; destruct body as [v | e]; simpl.
  - exists v; split; [reflexivity | apply Hbody; reflexivity].
  - exists k; split; [reflexivity | exact Hk].
Qed.

Lemma Favicon_loop_two_valued (self : t) (links : list Bs4.node) (v : Z) :
  Favicon_loop self links = Ok v -> v = -1 \/ v = 1.
Proof.
  induction links as [| link links IH]; simpl; intros H.
  - injection H as <-; left; reflexivity.
  - destruct (Bs4.getitem link "href") as [href | e]; simpl in H;
      [| discriminate].
    destruct (same_site self href); [| exact (IH H)].
    injection H as <-; right; reflexivity.
Qed.

Ltac split_two_valued H :=
  unfold bind in H;
  repeat match type of H with
         | context [match ?x with _ => _ end] => destruct x eqn:?
         | context [if ?b then _ else _] => destruct b eqn:?
         end;
  try discriminate H;
  try (injection H as <-; solve [left; reflexivity | right; reflexivity]).

Ltac tests_two_valued :=
  repeat match goal with
         | |- context [if ?b then _ else _] => destruct b
         | |- context [match ?x with _ => _ end] => destruct x
         end;
  (eexists; split;
   [reflexivity | solve [left; reflexivity | right; reflexivity]]).

(** Twenty-one of the thirty methods are two-valued: they return -1 or 1
    and never 0, whatever the URL and the outcome of the fetches.  Only
    [longUrl], [SubDomains], [RequestURL], [AnchorURL],
    [LinksInScriptTags], [ServerFormHandler], [WebsiteForwarding],
    [WebsiteTraffic] and [LinksPointingToPage] have a [return 0]. *)
Theorem two_valued_methods_never_zero :
  forall (w : World) (self : t) (m : Method.t),
    two_valued m = true ->
    exists v, call w self m = Ok v /\ (v = -1 \/ v = 1).
Proof.
  intros w self m Hm; destruct m; try discriminate Hm; clear Hm; simpl.
  all: try (apply try_except_two_valued;
            [intros v H | solve [left; reflexivity | right; reflexivity]]).
  all: try (unfold body_matches; apply try_except_two_valued;
            [intros v H | solve [left; reflexivity | right; reflexivity]]).
  all: try solve [split_two_valued H].
  - unfold shortUrl; tests_two_valued.
  - unfold symbol; tests_two_valued.
  - unfold redirecting; cbv zeta; tests_two_valued.
  - unfold prefixSuffix; tests_two_valued.
  - unfold Https; tests_two_valued.
  - split_two_valued H; eapply Favicon_loop_two_valued; eassumption.
  - unfold NonStdPort; tests_two_valued.
  - unfold HTTPSDomainURL; tests_two_valued.
Qed.

Lemma two_valued_methods_witness :
  exists v,
    call Fixtures.unreachable
         (fetch Fixtures.unreachable "http://example.com/")
         Method.StatsReport = Ok v
    /\ (v = -1 \/ v = 1).
Proof.
  apply two_valued_methods_never_zero; reflexivity.
Defined.

(** ** The fallback values *)

(** When nothing answers (no response, no parsed page, no WHOIS entry, and
    each of the four lookups raises), the twenty methods that need the
    network return their fallbacks: -1 for seventeen of them, and 1 for
    [InfoEmail], [GoogleIndex] and [StatsReport]. *)
Theorem fallbacks_when_nothing_answers :
  forall (w : World) (self : t) (e1 e2 e3 e4 : exn),
    response self = None ->
    soup self = None ->
    whois_response self = None ->
    urlopen_read w (alexa_url (url self)) = Raise e1 ->
    requests_post w "https://www.checkpagerank.net/index.php" (domain self)
    = Raise e2 ->
    search w (url self) = Raise e3 ->
    gethostbyname w (domain self) = Raise e4 ->
    map (call w self)
        [Method.DomainRegLen; Method.Favicon; Method.RequestURL;
         Method.AnchorURL; Method.LinksInScriptTags;
         Method.ServerFormHandler; Method.InfoEmail; Method.AbnormalURL;
         Method.WebsiteForwarding; Method.StatusBarCust;
         Method.DisableRightClick; Method.UsingPopupWindow;
         Method.IframeRedirection; Method.AgeofDomain; Method.DNSRecording;
         Method.WebsiteTraffic; Method.PageRank; Method.GoogleIndex;
         Method.LinksPointingToPage; Method.StatsReport]
    = map Ok [-1; -1; -1; -1; -1; -1; 1; -1; -1; -1;
              -1; -1; -1; -1; -1; -1; -1; 1; -1; 1].
Proof.
  intros w self e1 e2 e3 e4 Hresp Hsoup Hwhois Htraffic Hrank Hsearch Hdns.
  unfold alexa_url in Htraffic.
  simpl.
  unfold DomainRegLen, Favicon, RequestURL, AnchorURL, LinksInScriptTags,
    ServerFormHandler, InfoEmail, AbnormalURL, WebsiteForwarding,
    StatusBarCust, DisableRightClick, UsingPopupWindow, IframeRedirection,
    DNSRecording, AgeofDomain, WebsiteTraffic, PageRank, GoogleIndex,
    LinksPointingToPage, StatsReport, body_matches, response_if_ok.
  cbv zeta.
  rewrite Hresp, Hsoup, Hwhois, Htraffic, Hrank, Hsearch, Hdns.
  reflexivity.
Qed.

Lemma fallbacks_when_nothing_answers_witness :
  map (call Fixtures.unreachable
            (fetch Fixtures.unreachable "http://example.com/"))
      [Method.DomainRegLen; Method.Favicon; Method.RequestURL;
       Method.AnchorURL; Method.LinksInScriptTags;
       Method.ServerFormHandler; Method.InfoEmail; Method.AbnormalURL;
       Method.WebsiteForwarding; Method.StatusBarCust;
       Method.DisableRightClick; Method.UsingPopupWindow;
       Method.IframeRedirection; Method.AgeofDomain; Method.DNSRecording;
       Method.WebsiteTraffic; Method.PageRank; Method.GoogleIndex;
       Method.LinksPointingToPage; Method.StatsReport]
  = map Ok [-1; -1; -1; -1; -1; -1; 1; -1; -1; -1;
            -1; -1; -1; -1; -1; -1; -1; 1; -1; 1].
Proof.
  apply (fallbacks_when_nothing_answers Fixtures.unreachable _
           OSError OSError OSError gaierror); reflexivity.
Defined.

(** ** A response with an error status *)

(** [requests] makes a response with a status from 400 to 599 false.  For
    such a response the seven methods that test [self.response] return -1
    whatever the body and the redirect history are. *)
Theorem error_status_response_counts_as_none :
  forall (self : t) (r : Response),
    response self = Some r ->
    400 <= status_code r < 600 ->
    AbnormalURL self = Ok (-1)
    /\ WebsiteForwarding self = Ok (-1)
    /\ StatusBarCust self = Ok (-1)
    /\ DisableRightClick self = Ok (-1)
    /\ UsingPopupWindow self = Ok (-1)
    /\ IframeRedirection self = Ok (-1)
    /\ LinksPointingToPage self = Ok (-1).
Proof.
  intros self r Hresp Hstatus.
  assert (Hok : ok r = false).
  { unfold ok.
    destruct (400 <=? status_code r) eqn:E1; [| apply Z.leb_gt in E1; lia].
    destruct (status_code r <? 600) eqn:E2; [| apply Z.ltb_ge in E2; lia].
    reflexivity. }
  unfold AbnormalURL, WebsiteForwarding, StatusBarCust, DisableRightClick,
    UsingPopupWindow, IframeRedirection, LinksPointingToPage, body_matches,
    response_if_ok.
  rewrite Hresp, Hok.
  repeat split; destruct (whois_response self); reflexivity.
Qed.

Lemma error_status_response_witness :
  AbnormalURL (fetch Fixtures.not_found "http://example.com/") = Ok (-1)
  /\ WebsiteForwarding (fetch Fixtures.not_found "http://example.com/")
     = Ok (-1)
  /\ StatusBarCust (fetch Fixtures.not_found "http://example.com/") = Ok (-1)
  /\ DisableRightClick (fetch Fixtures.not_found "http://example.com/")
     = Ok (-1)
  /\ UsingPopupWindow (fetch Fixtures.not_found "http://example.com/")
     = Ok (-1)
  /\ IframeRedirection (fetch Fixtures.not_found "http://example.com/")
     = Ok (-1)
  /\ LinksPointingToPage (fetch Fixtures.not_found "http://example.com/")
     = Ok (-1).
Proof.
  apply (error_status_response_counts_as_none
           (fetch Fixtures.not_found "http://example.com/")
           {| status_code := 404;
              text := "<script>x onmouseover y</script><iframe src=f>alert(1) event.button==2 <a href=a><a href=b><a href=c>";
              history := [301; 302; 301; 302; 301] |});
    [reflexivity | simpl; lia].
Defined.

(** ** The counting loops *)

Lemma getitem_has_attr (k : string) (element : Bs4.node) :
  Bs4.has_attr k element = true -> exists v, Bs4.getitem element k = Ok v.
Proof.
  destruct element as [s | s | name attrs contents]; simpl;
    try discriminate.
  destruct (Bs4.assoc k attrs) as [v |]; [| discriminate].
  intros _; exists v; reflexivity.
Qed.

Lemma find_all_has_attr (name k : string) (doc : Bs4.node) :
  Forall (fun element => Bs4.has_attr k element = true)
         (Bs4.find_all name k doc).
Proof.
  apply Forall_forall; intros element Hin.
  unfold Bs4.find_all in Hin; apply filter_In in Hin.
  destruct Hin as [_ H]; apply andb_true_iff in H; exact (proj2 H).
Qed.

(** A loop over elements that all carry the attribute does not raise: it
    adds their number to the total and at most as much to the part. *)
Lemma count_elements_counts (k : string) (test : string -> bool)
      (elements : list Bs4.node) :
  Forall (fun element => Bs4.has_attr k element = true) elements ->
  forall acc : Z * Z,
  exists part,
    count_elements k test elements acc
    = Ok (fst acc + Z.of_nat (List.length elements), part)
    /\ snd acc <= part <= snd acc + Z.of_nat (List.length elements).
Proof.
  induction 1 as [| element elements Hattr _ IH]; intros acc.
  - exists (snd acc); simpl; split; [| lia].
    rewrite Z.add_0_r; destruct acc; reflexivity.
  - destruct (getitem_has_attr k element Hattr) as [v Hv].
    simpl count_elements; rewrite Hv; simpl bind.
    destruct (IH (fst acc + 1, if test v then snd acc + 1 else snd acc))
      as [part [Hrun Hpart]].
    change (List.length (element :: elements))
      with (S (List.length elements)).
    rewrite Nat2Z.inj_succ.
    exists part; split.
    + rewrite Hrun; simpl fst; f_equal; f_equal; lia.
    + simpl snd in Hpart; destruct (test v); lia.
Qed.

Lemma count_tags_counts (self : t) (doc : Bs4.node) (tags : list string) :
  forall acc : Z * Z,
  exists part,
    count_tags self doc tags acc
    = Ok (fst acc + Z.of_nat (List.length (src_elements doc tags)), part)
    /\ snd acc <= part
       <= snd acc + Z.of_nat (List.length (src_elements doc tags)).
Proof.
  induction tags as [| tag tags IH]; intros acc.
  - exists (snd acc); simpl; split; [| lia].
    rewrite Z.add_0_r; destruct acc; reflexivity.
  - destruct (count_elements_counts "src" (same_site self)
                (Bs4.find_all tag "src" doc)
                (find_all_has_attr tag "src" doc) acc)
      as [part1 [Hrun1 Hpart1]].
    destruct (IH (fst acc + Z.of_nat (List.length (Bs4.find_all tag "src" doc)),
                  part1)) as [part [Hrun Hpart]].
    exists part; simpl count_tags; rewrite Hrun1; simpl bind.
    unfold src_elements in *; simpl flat_map.
    rewrite length_app, Nat2Z.inj_add.
    split.
    + rewrite Hrun; simpl fst; f_equal; f_equal; lia.
    + simpl snd in Hpart; lia.
Qed.

Lemma count_tags_from_zero (self : t) (doc : Bs4.node) (tags : list string) :
  exists part,
    count_tags self doc tags (0, 0)
    = Ok (Z.of_nat (List.length (src_elements doc tags)), part)
    /\ 0 <= part <= Z.of_nat (List.length (src_elements doc tags)).
Proof.
  destruct (count_tags_counts self doc tags (0, 0)) as [part [Hrun Hpart]].
  exists part; split; [exact Hrun | simpl in Hpart; lia].
Qed.

(** On a parsed page without a [src]-carrying [img], [audio], [embed] or
    [iframe], [RequestURL] returns 1, and without a [src]-carrying [link]
    or [script], [LinksInScriptTags] returns 1: the empty ratio counts as
    zero and is below the first threshold. *)
Theorem ratio_methods_without_elements :
  forall (self : t) (doc : Bs4.node),
    soup self = Some doc ->
    (src_elements doc ["img"; "audio"; "embed"; "iframe"] = [] ->
     RequestURL self = Ok 1)
    /\ (src_elements doc ["link"; "script"] = [] ->
        LinksInScriptTags self = Ok 1).
Proof.
  intros self doc Hsoup; split; intros Hnone.
  - destruct (count_tags_from_zero self doc ["img"; "audio"; "embed"; "iframe"])
      as [part [Hrun Hpart]].
    rewrite Hnone in Hrun, Hpart.
    change (Z.of_nat (List.length (@nil Bs4.node))) with 0 in Hrun, Hpart.
    assert (part = 0) by lia; subst part.
    unfold RequestURL; rewrite Hsoup, Hrun; reflexivity.
  - destruct (count_tags_from_zero self doc ["link"; "script"])
      as [part [Hrun Hpart]].
    rewrite Hnone in Hrun, Hpart.
    change (Z.of_nat (List.length (@nil Bs4.node))) with 0 in Hrun, Hpart.
    assert (part = 0) by lia; subst part.
    unfold LinksInScriptTags; rewrite Hsoup, Hrun; reflexivity.
Qed.

Lemma ratio_methods_without_elements_witness :
  RequestURL (fetch Fixtures.plain "http://example.com/") = Ok 1
  /\ LinksInScriptTags (fetch Fixtures.plain "http://example.com/") = Ok 1.
Proof.
  destruct (ratio_methods_without_elements
              (fetch Fixtures.plain "http://example.com/")
              Fixtures.no_anchor eq_refl) as [Hreq Hlinks].
  split; [apply Hreq | apply Hlinks]; reflexivity.
Defined.

(** ** An empty domain *)

Lemma str_in_empty (s : string) : str_in EmptyString s = true.
Proof. destruct s; reflexivity. Qed.

(** When [urlparse] raises, [self.domain] stays empty and
    [self.urlparse_obj] stays [None]; the five methods that read them then
    return fixed values: no hyphen, no port and no [https] in the host (1),
    not one or two dots (-1), no [https] scheme (-1). *)
Theorem host_methods_when_urlparse_raises :
  forall (w : World) (url : string) (e : exn),
    Urllib.urlparse (ip_address_ok w) url = Raise e ->
    domain (fetch w url) = EmptyString
    /\ urlparse_obj (fetch w url) = None
    /\ prefixSuffix (fetch w url) = Ok 1
    /\ SubDomains (fetch w url) = Ok (-1)
    /\ Https (fetch w url) = Ok (-1)
    /\ NonStdPort (fetch w url) = Ok 1
    /\ HTTPSDomainURL (fetch w url) = Ok 1.
Proof.
  intros w url e H.
  unfold prefixSuffix, SubDomains, Https, NonStdPort, HTTPSDomainURL, fetch;
    simpl; rewrite H; repeat split.
Qed.

Lemma host_methods_when_urlparse_raises_witness :
  domain (fetch Fixtures.unreachable "http://[::1/") = EmptyString
  /\ urlparse_obj (fetch Fixtures.unreachable "http://[::1/") = None
  /\ prefixSuffix (fetch Fixtures.unreachable "http://[::1/") = Ok 1
  /\ SubDomains (fetch Fixtures.unreachable "http://[::1/") = Ok (-1)
  /\ Https (fetch Fixtures.unreachable "http://[::1/") = Ok (-1)
  /\ NonStdPort (fetch Fixtures.unreachable "http://[::1/") = Ok 1
  /\ HTTPSDomainURL (fetch Fixtures.unreachable "http://[::1/") = Ok 1.
Proof.
  apply (host_methods_when_urlparse_raises Fixtures.unreachable
           "http://[::1/" ValueError); reflexivity.
Defined.

(** With an empty domain every string counts as same-site, because the
    empty string occurs in every string.  So [ServerFormHandler] never
    returns 0, an [href] is unsafe only for a hash sign, [javascript] or
    [mailto], and [Favicon] returns 1 as soon as the head has a [link]
    with an [href]. *)
Theorem empty_domain_is_in_every_string :
  forall self : t,
    domain self = EmptyString ->
    (forall s, same_site self s = true)
    /\ ServerFormHandler self <> Ok 0
    /\ (forall href,
          unsafe_href self href
          = str_in "#" href || str_in "javascript" (lower href)
            || str_in "mailto" (lower href))
    /\ (forall doc head link links,
          soup self = Some doc ->
          Bs4.find "head" doc = Some head ->
          Bs4.find_all "link" "href" head = link :: links ->
          Favicon self = Ok 1).
Proof.
  intros self Hdom.
  assert (Hsite : forall s, same_site self s = true).
  { intros s; unfold same_site; rewrite Hdom, str_in_empty.
    apply orb_true_r. }
  split; [exact Hsite |].
  split; [| split].
  - unfold ServerFormHandler; rewrite Hdom.
    destruct (soup self) as [doc |]; [| discriminate].
    destruct (Bs4.find_all "form" "action" doc) as [| form later];
      [discriminate |].
    destruct (Bs4.getitem form "action") as [action | e]; simpl;
      [| discriminate].
    rewrite str_in_empty, andb_false_r.
    destruct (String.eqb action EmptyString || String.eqb action "about:blank");
      discriminate.
  - intros href; unfold unsafe_href; rewrite Hdom, str_in_empty.
    simpl negb; rewrite andb_false_r, orb_false_r; reflexivity.
  - intros doc head link links Hsoup Hhead Hlinks.
    unfold Favicon; rewrite Hsoup, Hhead, Hlinks.
    assert (Hattr : Bs4.has_attr "href" link = true).
    { pose proof (find_all_has_attr "link" "href" head) as Hall.
      rewrite Hlinks in Hall; inversion Hall; assumption. }
    destruct (getitem_has_attr "href" link Hattr) as [v Hv].
    simpl Favicon_loop; rewrite Hv; simpl bind; rewrite Hsite; reflexivity.
Qed.

Lemma empty_domain_witness :
  (forall s,
      same_site (fetch Fixtures.with_forms "http:example.com") s = true)
  /\ ServerFormHandler (fetch Fixtures.with_forms "http:example.com") <> Ok 0.
Proof.
  destruct (empty_domain_is_in_every_string
              (fetch Fixtures.with_forms "http:example.com") eq_refl)
    as (Hsite & Hform & _).
  split; [exact Hsite | exact Hform].
Defined.

(** ** The age of the domain over time *)

(** A domain that counts as old on one day counts as old on every later
    day: with the same WHOIS entry, [AgeofDomain] stays 1 when the date
    moves on, and so does [DNSRecording]. *)
Theorem AgeofDomain_stays_old :
  forall (w1 w2 : World) (self : t),
    AgeofDomain w1 self = Ok 1 ->
    months (date_today w1) <= months (date_today w2) ->
    AgeofDomain w2 self = Ok 1 /\ DNSRecording w2 self = Ok 1.
Proof.
  intros w1 w2 self Hold Hlater.
  assert (Hage : AgeofDomain w2 self = Ok 1).
  { unfold AgeofDomain, months in *.
    destruct (whois_response self) as [wr |]; [| discriminate Hold].
    destruct (truthy wr); [| discriminate Hold].
    destruct (first_if_list (getattr wr "creation_date")) as [d | e];
      [| discriminate Hold].
    simpl in *.
    destruct (year_of d) as [cy | e]; [| discriminate Hold].
    destruct (month_of d) as [cm | e]; [| discriminate Hold].
    simpl in *.
    destruct (6 <=? (fst (date_today w1) - cy) * 12
                    + (snd (date_today w1) - cm)) eqn:E1;
      [| discriminate Hold].
    apply Z.leb_le in E1.
    destruct (6 <=? (fst (date_today w2) - cy) * 12
                    + (snd (date_today w2) - cm)) eqn:E2;
      [reflexivity |].
    apply Z.leb_gt in E2; lia. }
  split; [exact Hage | exact Hage].
Qed.

Lemma AgeofDomain_stays_old_witness :
  AgeofDomain (Fixtures.set_date_today (2031, 2) Fixtures.parked)
              (fetch Fixtures.parked "http://www.example.com") = Ok 1
  /\ DNSRecording (Fixtures.set_date_today (2031, 2) Fixtures.parked)
                  (fetch Fixtures.parked "http://www.example.com") = Ok 1.
Proof.
  apply (AgeofDomain_stays_old Fixtures.parked);
    [reflexivity | unfold months; simpl; lia].
Defined.

(** ** The block list *)

(** [StatsReport] returns -1 exactly when the host of the URL resolves and
    the URL or the resolved address matches its block-list pattern; in
    particular a listed URL whose host does not resolve is reported 1. *)
Theorem StatsReport_needs_resolution :
  forall (w : World) (self : t),
    StatsReport w self = Ok (-1)
    <-> exists ip,
          gethostbyname w (domain self) = Ok ip
          /\ (Py.search bad_urls (url self) = true
              \/ Py.search bad_ips ip = true).
Proof.
  intros w self; unfold StatsReport; cbv zeta.
  destruct (gethostbyname w (domain self)) as [ip | e]; simpl.
  - destruct (Py.search bad_urls (url self)) eqn:Hurl;
      destruct (Py.search bad_ips ip) eqn:Hip; simpl; split;
      try solve [intros _; exists ip; split; [reflexivity | auto]];
      try solve [intros _; reflexivity]; try discriminate.
    intros [ip' [Heq [H | H]]]; injection Heq as <-; congruence.
  - split; [discriminate |].
    intros [ip [H _]]; discriminate H.
Qed.

(** ** The constructor *)

(** The constructor always returns an instance.  Its URL is the one given;
    a parsed page is present only together with the response it was parsed
    from; the domain is the network location of the parsed URL, and empty
    when [urlparse] raised; the WHOIS entry is the registry's answer for
    that domain, and [None] when the lookup raised. *)
Theorem constructor_invariants :
  forall (w : World) (url : string),
    exists fe,
      __init__ w url = Ok fe
      /\ FeatureExtraction.url fe = url
      /\ match soup fe with
         | Some doc =>
             exists r, requests_get w url = Ok r
                       /\ response fe = Some r
                       /\ html_parser w (text r) = Ok doc
         | None => True
         end
      /\ match Urllib.urlparse (ip_address_ok w) url with
         | Ok p => urlparse_obj fe = Some p /\ domain fe = Urllib.netloc p
         | Raise _ => urlparse_obj fe = None /\ domain fe = EmptyString
         end
      /\ match whois w (domain fe) with
         | Ok entry => whois_response fe = Some entry
         | Raise _ => whois_response fe = None
         end.
Proof.
  intros w url.
  destruct (appends_extends w append_order (fetch w url)) as [vs [Hrun _]].
  eexists; split; [exact Hrun |].
  unfold fetch; simpl.
  split; [reflexivity |].
  split; [| split].
  - destruct (requests_get w url) as [r | e]; simpl; [| exact I].
    destruct (html_parser w (text r)) as [doc | e] eqn:Hdoc; simpl;
      [| exact I].
    exists r; repeat split; exact Hdoc.
  - destruct (Urllib.urlparse (ip_address_ok w) url); split; reflexivity.
  - destruct (whois w
                (snd match Urllib.urlparse (ip_address_ok w) url with
                     | Ok p => (Some p, Urllib.netloc p)
                     | Raise _ => (None, EmptyString)
                     end)); reflexivity.
Qed.

(** ** The lexical methods *)

(** The ten lexical methods read the URL string only: in two worlds in
    which the URL parses alike they return the same, whatever the page,
    the registry and the lookups answer. *)
Theorem lexical_methods_need_no_network :
  forall (w1 w2 : World) (url : string) (m : Method.t),
    lexical m = true ->
    Urllib.urlparse (ip_address_ok w1) url
    = Urllib.urlparse (ip_address_ok w2) url ->
    call w1 (fetch w1 url) m = call w2 (fetch w2 url) m.
Proof.
  intros w1 w2 url m Hm Hparse.
  destruct m; try discriminate Hm; simpl;
    unfold UsingIp, longUrl, shortUrl, symbol, redirecting, prefixSuffix,
      SubDomains, Https, NonStdPort, HTTPSDomainURL, fetch; simpl;
    rewrite ?Hparse; reflexivity.
Qed.

Lemma lexical_methods_need_no_network_witness :
  call Fixtures.unreachable
       (fetch Fixtures.unreachable "https://a-b.example.com:8080/x")
       Method.SubDomains
  = call Fixtures.not_found
         (fetch Fixtures.not_found "https://a-b.example.com:8080/x")
         Method.SubDomains.
Proof.
  apply lexical_methods_need_no_network; reflexivity.
Defined.

(** ** Patterns made of literals *)

Lemma prefixmatch_Never_Cat (r : regex) (s : string) :
  prefixmatch (Cat Never r) s = false.
Proof. induction s as [| c s IH]; simpl; [reflexivity | exact IH]. Qed.

Lemma prefixmatch_Alt (s : string) :
  forall r1 r2 : regex,
    prefixmatch (Alt r1 r2) s = prefixmatch r1 s || prefixmatch r2 s.
Proof.
  induction s as [| c s IH]; intros r1 r2; simpl.
  - destruct (nullable r1), (nullable r2); reflexivity.
  - rewrite IH.
    destruct (nullable r1), (nullable r2),
      (prefixmatch (deriv c r1) s), (prefixmatch (deriv c r2) s);
      reflexivity.
Qed.

Lemma prefixmatch_Empty_Cat (r : regex) (s : string) :
  prefixmatch (Cat Empty r) s = prefixmatch r s.
Proof.
  destruct s as [| c s]; simpl; [reflexivity |].
  rewrite prefixmatch_Alt, prefixmatch_Never_Cat; reflexivity.
Qed.

(** A literal matches at the start of a string exactly when it is a prefix
    of the string. *)
Lemma prefixmatch_lit (p : string) :
  forall s : string, prefixmatch (lit p) s = String.prefix p s.
Proof.
  induction p as [| c p IH]; intros s.
  - destruct s; reflexivity.
  - destruct s as [| d s]; simpl; [reflexivity |].
    unfold chr_eqb.
    destruct (ascii_dec c d) as [-> | Hne].
    + rewrite Ascii.eqb_refl, prefixmatch_Empty_Cat; apply IH.
    + apply Ascii.eqb_neq in Hne; rewrite Hne.
      apply prefixmatch_Never_Cat.
Qed.

Lemma str_in_unfold (p s : string) :
  str_in p s
  = String.prefix p s
    || match s with
       | EmptyString => false
       | String _ s' => str_in p s'
       end.
Proof.
  unfold str_in; destruct s as [| c s]; simpl.
  - destruct p; reflexivity.
  - destruct p as [| a p]; [reflexivity |].
    destruct (ascii_dec a c) as [-> |]; [| simpl;
      destruct (String.index 0 (String a p) s); reflexivity].
    destruct (String.prefix p s); simpl; [reflexivity |].
    destruct (String.index 0 (String c p) s); reflexivity.
Qed.

Lemma search_unfold (r : regex) (s : string) :
  Py.search r s
  = prefixmatch r s
    || match s with
       | EmptyString => false
       | String _ s' => Py.search r s'
       end.
Proof. destruct s; reflexivity. Qed.

(** Searching for a literal is the substring test. *)
Lemma search_lit (p s : string) : Py.search (lit p) s = str_in p s.
Proof.
  induction s as [| c s IH]; rewrite str_in_unfold, search_unfold,
    prefixmatch_lit; [reflexivity |].
  rewrite IH; reflexivity.
Qed.

Lemma search_Alt (r1 r2 : regex) (s : string) :
  Py.search (Alt r1 r2) s = Py.search r1 s || Py.search r2 s.
Proof.
  induction s as [| c s IH];
    rewrite (search_unfold (Alt r1 r2)), (search_unfold r1),
      (search_unfold r2), prefixmatch_Alt.
  - destruct (prefixmatch r1 EmptyString), (prefixmatch r2 EmptyString);
      reflexivity.
  - rewrite IH.
    destruct (prefixmatch r1 (String c s)), (prefixmatch r2 (String c s)),
      (Py.search r1 s), (Py.search r2 s); reflexivity.
Qed.

Lemma prefixmatch_Never (s : string) : prefixmatch Never s = false.
Proof. induction s as [| c s IH]; simpl; [reflexivity | exact IH]. Qed.

Lemma search_Never (s : string) : Py.search Never s = false.
Proof.
  induction s as [| c s IH]; rewrite search_unfold, prefixmatch_Never;
    [reflexivity | exact IH].
Qed.

(** Searching for an alternation of literals is the test whether one of
    them is a substring. *)
Lemma search_alts_lit (ps : list string) (s : string) :
  Py.search (alts (map lit ps)) s = existsb (fun p => str_in p s) ps.
Proof.
  induction ps as [| p ps IH]; [apply search_Never |].
  destruct ps as [| q ps].
  - simpl; rewrite search_lit, orb_false_r; reflexivity.
  - change (alts (map lit (p :: q :: ps)))
      with (Alt (lit p) (alts (map lit (q :: ps)))).
    rewrite search_Alt, search_lit, IH; reflexivity.
Qed.

(** [shortUrl] returns -1 exactly for the URLs that contain one of
    [bit.ly], [goo.gl], [shorte.st], [tinyurl] as a substring, wherever in
    the URL it stands, and 1 for all others. *)
Theorem shortUrl_is_substring_test :
  forall self : t,
    shortUrl self
    = Ok (if existsb (fun p => str_in p (url self))
                     ["bit.ly"; "goo.gl"; "shorte.st"; "tinyurl"]
          then -1 else 1).
Proof.
  intros self; unfold shortUrl.
  change shorteners
    with (alts (map lit ["bit.ly"; "goo.gl"; "shorte.st"; "tinyurl"])).
  rewrite search_alts_lit.
  destruct (existsb _ _); reflexivity.
Qed.

(** The two patterns of [StatsReport] escape every dot, so they are
    substring tests too: the URL is listed when it contains one of the ten
    host names, the address when it contains one of the twelve addresses
    (a longer address that contains a listed one included). *)
Theorem StatsReport_patterns_are_substring_tests :
  forall s : string,
    Py.search bad_urls s
    = existsb (fun p => str_in p s)
        ["at.ua"; "usa.cc"; "baltazarpresentes.com.br"; "pe.hu"; "esy.es";
         "hol.es"; "sweddy.com"; "myjino.ru"; "96.lt"; "ow.ly"]
    /\ Py.search bad_ips s
       = existsb (fun p => str_in p s)
           ["146.112.61.108"; "213.174.157.151"; "121.50.168.88";
            "192.185.217.116"; "78.46.211.158"; "181.174.165.13";
            "46.242.145.103"; "121.50.168.40"; "83.125.22.219";
            "46.242.145.98"; "107.151.148.44"; "107.151.148.107"].
Proof.
  intros s; split.
  - change bad_urls
      with (alts (map lit
              ["at.ua"; "usa.cc"; "baltazarpresentes.com.br"; "pe.hu";
               "esy.es"; "hol.es"; "sweddy.com"; "myjino.ru"; "96.lt";
               "ow.ly"])).
    apply search_alts_lit.
  - change bad_ips
      with (alts (map lit
              ["146.112.61.108"; "213.174.157.151"; "121.50.168.88";
               "192.185.217.116"; "78.46.211.158"; "181.174.165.13";
               "46.242.145.103"; "121.50.168.40"; "83.125.22.219";
               "46.242.145.98"; "107.151.148.44"; "107.151.148.107"])).
    apply search_alts_lit.
Qed.

(** ** The double slash after the scheme marker *)

Lemma index_after_prefix (p x y : string) (n : nat) :
  String.index (String.length x + n) p (x ++ y)
  = match String.index n p y with
    | Some m => Some (String.length x + m)%nat
    | None => None
    end.
Proof.
  induction x as [| c x IH]; simpl.
  - destruct (String.index n p y); reflexivity.
  - rewrite IH; destruct (String.index n p y); reflexivity.
Qed.

(** [redirecting] looks for a double slash only behind the first [://]:
    a URL without [://] gets 1 even if it contains double slashes, and a
    URL with [://] gets -1 exactly when what follows the first [://]
    contains a double slash; the slashes of the marker do not count. *)
Theorem redirecting_looks_behind_scheme_marker :
  forall self : t,
    (str_in "://" (url self) = false -> redirecting self = Ok 1)
    /\ (forall a b,
          url self = (a ++ "://" ++ b)%string ->
          String.index 0 "://" (url self) = Some (String.length a) ->
          redirecting self = Ok (if str_in "//" b then -1 else 1)).
Proof.
  intros self; unfold redirecting; split.
  - intros H; rewrite H; reflexivity.
  - intros a b Hurl Hfirst.
    assert (Hin : str_in "://" (url self) = true)
      by (unfold str_in; rewrite Hfirst; reflexivity).
    rewrite Hin; unfold Py.find at 2; simpl Z.to_nat; rewrite Hfirst.
    unfold Py.find.
    replace (Z.to_nat (Z.of_nat (String.length a) + 3))
      with (String.length a + 3)%nat by lia.
    rewrite Hurl, index_after_prefix.
    unfold str_in; simpl String.index.
    destruct (String.index 0 "//" b) as [m |]; simpl.
    + destruct (Z.of_nat (String.length a + S (S (S m))) =? -1) eqn:E;
        [apply Z.eqb_eq in E; lia | reflexivity].
    + reflexivity.
Qed.

Lemma redirecting_witness :
  redirecting (fetch Fixtures.unreachable "//example.com//x") = Ok 1
  /\ redirecting (fetch Fixtures.unreachable "http://example.com/a/b") = Ok 1
  /\ redirecting (fetch Fixtures.unreachable "http://example.com//evil")
     = Ok (-1).
Proof.
  split; [| split].
  - apply (proj1 (redirecting_looks_behind_scheme_marker _)); reflexivity.
  - apply (proj2 (redirecting_looks_behind_scheme_marker
                    (fetch Fixtures.unreachable "http://example.com/a/b"))
                 "http" "example.com/a/b"); reflexivity.
  - apply (proj2 (redirecting_looks_behind_scheme_marker
                    (fetch Fixtures.unreachable "http://example.com//evil"))
                 "http" "example.com//evil"); reflexivity.
Defined.

(** ** A URL typed without a scheme *)

(** When the submitted string has no scheme, [validate_url] puts [http://]
    before it, so [Https] returns -1 for it, whether the site serves HTTPS
    or not. *)
Theorem Https_of_schemeless_input :
  forall (w : World) (raw : string) (p : Urllib.ParseResult),
    Urllib.urlparse (ip_address_ok w) raw = Ok p ->
    Urllib.scheme p = EmptyString ->
    App.validate_url w raw = Ok ("http://" ++ raw)%string
    /\ Https (fetch w ("http://" ++ raw)) = Ok (-1).
Proof.
  intros w raw p Hparse Hscheme; split.
  - unfold App.validate_url; rewrite Hparse; simpl; rewrite Hscheme.
    reflexivity.
  - unfold Https, fetch; cbv zeta.
    change (urlparse_obj _)
      with (fst match Urllib.urlparse (ip_address_ok w) ("http://" ++ raw) with
                | Ok p0 => (Some p0, Urllib.netloc p0)
                | Raise _ => (None, EmptyString)
                end).
    destruct (Urllib.urlparse (ip_address_ok w) ("http://" ++ raw))
      as [p' | e] eqn:Hp'; simpl; [| reflexivity].
    rewrite (urlparse_http_prefix _ _ _ Hp'); reflexivity.
Qed.

Lemma Https_of_schemeless_input_witness :
  App.validate_url Fixtures.unreachable "secure.example.com"
  = Ok "http://secure.example.com"
  /\ Https (fetch Fixtures.unreachable "http://secure.example.com") = Ok (-1).
Proof.
  apply (Https_of_schemeless_input Fixtures.unreachable "secure.example.com"
           {| Urllib.scheme := EmptyString; Urllib.netloc := EmptyString;
              Urllib.rest := "secure.example.com" |}); reflexivity.
Defined.

Lemma StatsReport_needs_resolution_witness :
  StatsReport Fixtures.parked (fetch Fixtures.parked "http://www.example.com")
  = Ok (-1).
Proof.
  apply (proj2 (StatsReport_needs_resolution Fixtures.parked
                  (fetch Fixtures.parked "http://www.example.com"))).
  exists "146.112.61.108"; split; [reflexivity | right; reflexivity].
Defined.

(** ** The registration dates *)

(** [DomainRegLen] returns 1 only for a non-empty WHOIS entry whose
    expiration and creation dates (the first ones, when the registry gives
    lists) are both dates and lie at least twelve months apart, counted by
    year and month; a missing date, a date left as text or an empty list
    gives -1.  [AgeofDomain] returns 1 only for such a creation date that
    lies at least six months before today. *)
Theorem registration_methods_need_dates :
  forall (w : World) (self : t),
    (DomainRegLen self = Ok 1
     <-> exists wr ey em ed cy cm cd,
           whois_response self = Some wr
           /\ items wr <> []
           /\ first_if_list (getattr wr "expiration_date")
              = Ok (PDatetime ey em ed)
           /\ first_if_list (getattr wr "creation_date")
              = Ok (PDatetime cy cm cd)
           /\ 12 <= (ey - cy) * 12 + (em - cm))
    /\ (AgeofDomain w self = Ok 1
        <-> exists wr cy cm cd,
              whois_response self = Some wr
              /\ items wr <> []
              /\ first_if_list (getattr wr "creation_date")
                 = Ok (PDatetime cy cm cd)
              /\ 6 <= (fst (date_today w) - cy) * 12
                      + (snd (date_today w) - cm)).
Proof.
  intros w self; split; split.
  - unfold DomainRegLen, truthy; intros H.
    destruct (whois_response self) as [wr |]; [| discriminate H].
    destruct (items wr) as [| item rest] eqn:Hitems; [discriminate H |].
    destruct (first_if_list (getattr wr "expiration_date")) as [e | x]
      eqn:He; [| discriminate H].
    destruct (first_if_list (getattr wr "creation_date")) as [c | x]
      eqn:Hc; [| destruct e; discriminate H].
    destruct e as [| s | ey em ed | l]; try discriminate H.
    destruct c as [| s | cy cm cd | l]; try discriminate H.
    simpl in H.
    destruct (12 <=? (ey - cy) * 12 + (em - cm)) eqn:E; [| discriminate H].
    apply Z.leb_le in E.
    exists wr, ey, em, ed, cy, cm, cd.
    split; [reflexivity |].
    split; [rewrite Hitems; discriminate |].
    split; [exact He |].
    split; [exact Hc | exact E].
  - intros (wr & ey & em & ed & cy & cm & cd & Hwr & Hne & He & Hc & Hlen).
    unfold DomainRegLen, truthy; rewrite Hwr.
    destruct (items wr) as [| item rest]; [contradiction Hne; reflexivity |].
    rewrite He, Hc; simpl.
    apply Z.leb_le in Hlen; rewrite Hlen; reflexivity.
  - unfold AgeofDomain, truthy; intros H.
    destruct (whois_response self) as [wr |]; [| discriminate H].
    destruct (items wr) as [| item rest] eqn:Hitems; [discriminate H |].
    destruct (first_if_list (getattr wr "creation_date")) as [c | x]
      eqn:Hc; [| discriminate H].
    destruct c as [| s | cy cm cd | l]; try discriminate H.
    simpl in H.
    destruct (6 <=? (fst (date_today w) - cy) * 12
                    + (snd (date_today w) - cm)) eqn:E; [| discriminate H].
    apply Z.leb_le in E.
    exists wr, cy, cm, cd.
    split; [reflexivity |].
    split; [rewrite Hitems; discriminate |].
    split; [exact Hc | exact E].
  - intros (wr & cy & cm & cd & Hwr & Hne & Hc & Hage).
    unfold AgeofDomain, truthy; rewrite Hwr.
    destruct (items wr) as [| item rest]; [contradiction Hne; reflexivity |].
    rewrite Hc; simpl.
    apply Z.leb_le in Hage; rewrite Hage; reflexivity.
Qed.

Lemma registration_methods_need_dates_witness :
  DomainRegLen (fetch Fixtures.parked "http://www.example.com") = Ok 1
  /\ AgeofDomain Fixtures.parked
       (fetch Fixtures.parked "http://www.example.com") = Ok 1.
Proof.
  destruct (registration_methods_need_dates Fixtures.parked
              (fetch Fixtures.parked "http://www.example.com"))
    as [[_ Hreg] [_ Hage]].
  split.
  - apply Hreg.
    exists Fixtures.long_registered, 2030, 1, 1, 2000, 1, 1.
    repeat split; try reflexivity; [discriminate | lia].
  - apply Hage.
    exists Fixtures.long_registered, 2000, 1, 1.
    repeat split; try reflexivity; [discriminate | simpl; lia].
Defined.
